(** * flask_annotation_app: the annotation store and the asset scan of [app.py]

    A shallow embedding of the request handlers of [src/app.py]:
    the in-memory [annotations_db] with its five JSON endpoints, and the
    two-level directory scan behind [/videos].

    Python values decoded from a JSON body are [pyval]; a Python [dict] with
    string keys is an association list in insertion order; the process-wide
    [annotations_db] is a finite map from hashable keys to records; handlers
    run in a small state-and-exception monad, so that what an uncaught
    exception leaves behind in the store is part of the model. *)

From Stdlib Require Import ZArith String Ascii List Floats QArith Qcanon Lia.
From Stdlib Require Import DecimalString.
From stdpp Require Import gmap strings list fin_maps.

Set Warnings "-register-all".

Local Open Scope string_scope.
Local Open Scope Z_scope.

(** ** Python values as produced by [json.loads] *)

Inductive pyval : Type :=
  | VNone
  | VBool (b : bool)
  | VInt (z : Z)
  | VFloat (f : float)
  | VStr (s : string)
  | VList (l : list pyval)
  | VDict (d : list (string * pyval)).

(** A [dict] with [str] keys, in insertion order. *)
Abbreviation pydict := (list (string * pyval)).

(** [d.get(k)] without a default is [dict_get] with [None] read as Python's
    [None]; [d[k]] raises [KeyError] where [dict_get] is [None]. *)
Fixpoint dict_get (k : string) (d : pydict) : option pyval :=
  match d with
  | [] => None
  | (k', v) :: rest => if String.eqb k k' then Some v else dict_get k rest
  end.

(** [d[k] = v]: an existing key keeps its position, a new key goes last. *)
Fixpoint dict_set (k : string) (v : pyval) (d : pydict) : pydict :=
  match d with
  | [] => [(k, v)]
  | (k', v') :: rest =>
      if String.eqb k k' then (k, v) :: rest else (k', v') :: dict_set k v rest
  end.

(** Truth value testing, as used by [if not video_id]. *)
Definition truthy (v : pyval) : bool :=
  match v with
  | VNone => false
  | VBool b => b
  | VInt z => negb (z =? 0)%Z
  | VFloat f => negb (PrimFloat.eqb f PrimFloat.zero)
  | VStr s => negb (String.eqb s "")
  | VList l => match l with [] => false | _ => true end
  | VDict d => match d with [] => false | _ => true end
  end.

(** ** Exceptions and results *)

Inductive pyexc : Type :=
  | AttributeError
  | KeyError
  | TypeError
  | ValueError
  | OverflowError
  | FileNotFoundError
  | NotADirectoryError.

Inductive result (A : Type) : Type :=
  | Ok (a : A)
  | Raise (e : pyexc).
Arguments Ok {A} a.
Arguments Raise {A} e.

(** [FileNotFoundError] and [NotADirectoryError] are the [OSError]s of
    [os.listdir]. *)
Definition is_OSError (e : pyexc) : bool :=
  match e with
  | FileNotFoundError | NotADirectoryError => true
  | _ => false
  end.

(** ** Keys of [annotations_db]

    Python compares dictionary keys by value: [True], [1] and [1.0] are one
    key, a [str] never equals a number, and [list] and [dict] are unhashable.
    Numeric keys are kept as the exact rational they denote. *)

Inductive pykey : Type :=
  | KNone
  | KStr (s : string)
  | KNum (q : Qc)
  | KInf (neg : bool)
  | KNan.

Global Instance pykey_eq_dec : EqDecision pykey.
Proof. solve_decision. Defined.

Definition pykey_enc (k : pykey) : string + Qc + bool + bool :=
  match k with
  | KNone => inr false
  | KStr s => inl (inl (inl s))
  | KNum q => inl (inl (inr q))
  | KInf b => inl (inr b)
  | KNan => inr true
  end.

Definition pykey_dec (x : string + Qc + bool + bool) : pykey :=
  match x with
  | inl (inl (inl s)) => KStr s
  | inl (inl (inr q)) => KNum q
  | inl (inr b) => KInf b
  | inr b => if b then KNan else KNone
  end.

Global Instance pykey_countable : Countable pykey.
Proof.
  apply (inj_countable' pykey_enc pykey_dec).
  intros []; reflexivity.
Defined.

Definition Qc_of_Z (z : Z) : Qc := Q2Qc (inject_Z z).

(** The rational denoted by a finite float [(-1)^s * m * 2^e]. *)
Definition Qc_of_finite (s : bool) (m : positive) (e : Z) : Qc :=
  Q2Qc (inject_Z (cond_Zopp s (Zpos m)) * Qpower (2 # 1) e)%Q.

(** [hash(v)]: [None] stands for [TypeError: unhashable type]. *)
Definition to_key (v : pyval) : option pykey :=
  match v with
  | VNone => Some KNone
  | VBool b => Some (KNum (Qc_of_Z (if b then 1 else 0)))
  | VInt z => Some (KNum (Qc_of_Z z))
  | VFloat f =>
      match Prim2SF f with
      | S754_zero _ => Some (KNum (Qc_of_Z 0))
      | S754_infinity s => Some (KInf s)
      | S754_nan => Some KNan
      | S754_finite s m e => Some (KNum (Qc_of_finite s m e))
      end
  | VStr s => Some (KStr s)
  | VList _ | VDict _ => None
  end.

(** ** [time.strftime("%Y-%m-%d %H:%M:%S")]

    The handler reads the local clock; the reading is an input of the
    request.  Only the fields the format string uses are kept. *)

Record struct_time : Type := {
  tm_year : Z;
  tm_mon : Z;
  tm_mday : Z;
  tm_hour : Z;
  tm_min : Z;
  tm_sec : Z
}.

Definition digit_char (d : Z) : ascii := ascii_of_N (48 + Z.to_N d).

(** [%m], [%d], [%H], [%M], [%S]: two decimal digits, zero padded. *)
Definition two_digits (n : Z) : string :=
  String (digit_char (n / 10)) (String (digit_char (n mod 10)) EmptyString).

(** [%Y]: the year in decimal, not padded. *)
Definition year_digits (y : Z) : string :=
  DecimalString.NilZero.string_of_int (Z.to_int y).

Definition strftime (t : struct_time) : string :=
  year_digits (tm_year t) +:+ "-" +:+ two_digits (tm_mon t) +:+ "-" +:+
  two_digits (tm_mday t) +:+ " " +:+ two_digits (tm_hour t) +:+ ":" +:+
  two_digits (tm_min t) +:+ ":" +:+ two_digits (tm_sec t).

(** A clock reading as [time.localtime()] returns it, with a four digit
    year. *)
Definition valid_time (t : struct_time) : Prop :=
  1000 <= tm_year t <= 9999 /\ 1 <= tm_mon t <= 12 /\ 1 <= tm_mday t <= 31 /\
  0 <= tm_hour t <= 23 /\ 0 <= tm_min t <= 59 /\ 0 <= tm_sec t <= 61.

Definition is_digit (c : ascii) : bool :=
  (48 <=? N_of_ascii c)%N && (N_of_ascii c <=? 57)%N.

(** [matches_pattern pat s]: [s] has the shape [pat], where a [Y], [M], [D],
    [H] or [S] of the pattern stands for one decimal digit and every other
    character for itself. *)
Definition is_placeholder (c : ascii) : bool :=
  existsb (Ascii.eqb c) ["Y"; "M"; "D"; "H"; "S"]%char.

Fixpoint matches_pattern (pat s : string) : bool :=
  match pat, s with
  | EmptyString, EmptyString => true
  | String p pat', String c s' =>
      (if is_placeholder p then is_digit c else Ascii.eqb p c)
      && matches_pattern pat' s'
  | _, _ => false
  end.

Definition timestamp_pattern : string := "YYYY-MM-DD HH:MM:SS".

(** ** The annotation store *)

(** One value of [annotations_db]:
    [{'annotations': [...], 'critical_moment': ...}]. *)
Record video_record : Type := {
  annotations : list pyval;
  critical_moment : pyval
}.

Definition empty_record : video_record :=
  {| annotations := []; critical_moment := VNone |}.

Abbreviation store := (gmap pykey video_record).

(** What a view function hands back to Flask. *)
Record response : Type := {
  status : Z;
  body : pyval
}.

(** [jsonify(v), code]; a bare [jsonify(v)] is status 200. *)
Definition jsonify (v : pyval) (code : Z) : response :=
  {| status := code; body := v |}.

(** An exception that leaves the view function becomes a 500 response. *)
Definition http_status (r : result response) : Z :=
  match r with
  | Ok resp => status resp
  | Raise _ => 500
  end.

(** *** Handlers: state of [annotations_db] plus exceptions

    A raised exception keeps the store as it was when it was raised. *)

Definition handler (A : Type) : Type := store -> result A * store.

Definition ret {A} (a : A) : handler A := fun db => (Ok a, db).

Definition bind {A B} (m : handler A) (k : A -> handler B) : handler B :=
  fun db =>
    match m db with
    | (Ok a, db') => k a db'
    | (Raise e, db') => (Raise e, db')
    end.

Notation "'let!' x ':=' m 'in' k" := (bind m (fun x => k))
  (at level 10, x pattern, m at level 100, k at level 200).
Notation "m ';;;' k" := (bind m (fun _ => k))
  (at level 100, k at level 200, right associativity).

Definition lift {A} (r : result A) : handler A := fun db => (r, db).

(** [k in annotations_db] *)
Definition db_contains (k : pykey) : handler bool :=
  fun db => (Ok (bool_decide (is_Some (db !! k))), db).

(** [annotations_db[k]] *)
Definition db_getitem (k : pykey) : handler video_record :=
  fun db =>
    match db !! k with
    | Some r => (Ok r, db)
    | None => (Raise KeyError, db)
    end.

(** [annotations_db[k] = r] *)
Definition db_setitem (k : pykey) (r : video_record) : handler unit :=
  fun db => (Ok tt, <[k := r]> db).

(** The request body must be a [dict] for [data.get] to exist. *)
Definition as_dict (v : pyval) : result pydict :=
  match v with
  | VDict d => Ok d
  | _ => Raise AttributeError
  end.

(** [d.get(k)] *)
Definition dict_get_default (k : string) (d : pydict) : pyval :=
  match dict_get k d with
  | Some v => v
  | None => VNone
  end.

(** [d[k]] *)
Definition dict_getitem (k : string) (d : pydict) : result pyval :=
  match dict_get k d with
  | Some v => Ok v
  | None => Raise KeyError
  end.

Definition hash_key (v : pyval) : result pykey :=
  match to_key v with
  | Some k => Ok k
  | None => Raise TypeError
  end.

(** [request.args.get('video_id', None)] *)
Definition arg_value (a : option string) : pyval :=
  match a with
  | Some s => VStr s
  | None => VNone
  end.

(** [float(z)] for an [int]: round to nearest even, [OverflowError] beyond
    the largest finite double. *)
Definition float_of_int (z : Z) : result float :=
  match binary_normalize prec emax z 0 false with
  | S754_infinity _ => Raise OverflowError
  | sf => Ok (SF2Prim sf)
  end.

Definition no_video_id : pyval :=
  VDict [("status", VStr "error"); ("message", VStr "No video_id provided")].

Section Store.

(** [float(s)] for a [str] is CPython's string-to-double conversion;
    [None] stands for [ValueError]. *)
Variable float_of_str : string -> option float.

(** The builtin [float(v)]. *)
Definition py_float (v : pyval) : result float :=
  match v with
  | VNone => Raise TypeError
  | VBool b => Ok (if b then PrimFloat.one else PrimFloat.zero)
  | VInt z => float_of_int z
  | VFloat f => Ok f
  | VStr s =>
      match float_of_str s with
      | Some f => Ok f
      | None => Raise ValueError
      end
  | VList _ | VDict _ => Raise TypeError
  end.

(** [if video_id not in annotations_db: annotations_db[video_id] = {...}] *)
Definition ensure_record (k : pykey) : handler unit :=
  let! present := db_contains k in
  if present then ret tt else db_setitem k empty_record.

Definition save_annotation (now : struct_time) (request_json : pyval)
  : handler response :=
  let! data := lift (as_dict request_json) in
  let video_id := dict_get_default "video_id" data in
  if negb (truthy video_id) then ret (jsonify no_video_id 400)
  else
    let! k := lift (hash_key video_id) in
    ensure_record k ;;;
    let data := dict_set "timestamp" (VStr (strftime now)) data in
    let! t := lift (dict_getitem "time" data) in
    let! f := lift (py_float t) in
    let data := dict_set "time" (VFloat f) data in
    let! r := db_getitem k in
    db_setitem k {| annotations := annotations r ++ [VDict data];
                    critical_moment := critical_moment r |} ;;;
    ret (jsonify (VDict [("status", VStr "success"); ("data", VDict data)]) 200).

Definition get_annotations (arg : option string) : handler response :=
  let video_id := arg_value arg in
  if negb (truthy video_id) then ret (jsonify (VList []) 200)
  else
    let! k := lift (hash_key video_id) in
    let! present := db_contains k in
    if negb present then ret (jsonify (VList []) 200)
    else
      let! r := db_getitem k in
      ret (jsonify (VList (annotations r)) 200).

Definition set_critical_moment (request_json : pyval) : handler response :=
  let! data := lift (as_dict request_json) in
  let video_id := dict_get_default "video_id" data in
  let critical_moment_in := dict_get_default "critical_moment" data in
  if negb (truthy video_id) then ret (jsonify no_video_id 400)
  else
    let! k := lift (hash_key video_id) in
    ensure_record k ;;;
    let! f := lift (py_float critical_moment_in) in
    let! r := db_getitem k in
    db_setitem k {| annotations := annotations r;
                    critical_moment := VFloat f |} ;;;
    ret (jsonify (VDict [("status", VStr "success");
                         ("critical_moment", critical_moment_in)]) 200).

Definition get_critical_moment (arg : option string) : handler response :=
  let video_id := arg_value arg in
  if negb (truthy video_id)
  then ret (jsonify (VDict [("critical_moment", VNone)]) 200)
  else
    let! k := lift (hash_key video_id) in
    let! present := db_contains k in
    if negb present
    then ret (jsonify (VDict [("critical_moment", VNone)]) 200)
    else
      let! r := db_getitem k in
      ret (jsonify (VDict [("critical_moment", critical_moment r)]) 200).

Definition no_data : pyval :=
  VDict [("annotations", VList []);
         ("message", VStr "No data for this video_id")].

Definition review_annotations (arg : option string) : handler response :=
  let video_id := arg_value arg in
  if negb (truthy video_id) then ret (jsonify no_data 200)
  else
    let! k := lift (hash_key video_id) in
    let! present := db_contains k in
    if negb present then ret (jsonify no_data 200)
    else
      let! r := db_getitem k in
      ret (jsonify (VDict [("video_id", video_id);
                           ("annotations", VList (annotations r))]) 200).

End Store.

(** ** The asset scan of [/videos] *)

(** *** [os.path.splitext] and [str.lower] *)

(** [s.rfind(c)] from offset [i]: the last index of [c], or [-1]. *)
Fixpoint rfind_from (i : Z) (c : ascii) (s : string) : Z :=
  match s with
  | EmptyString => -1
  | String a s' =>
      let r := rfind_from (i + 1) c s' in
      if 0 <=? r then r else if Ascii.eqb a c then i else -1
  end.

Definition rfind (c : ascii) (s : string) : Z := rfind_from 0 c s.

(** The loop of [genericpath._splitext] that skips leading dots: is there a
    character other than [.] at an index in [[lo, hi)]? *)
Definition has_non_dot (p : string) (lo hi : Z) : bool :=
  existsb
    (fun i => match String.get i p with
              | Some c => negb (Ascii.eqb c ".")
              | None => true
              end)
    (seq (Z.to_nat lo) (Z.to_nat (hi - lo))).

(** [posixpath.splitext(p)]: [sep] is [/], there is no [altsep]. *)
Definition splitext (p : string) : string * string :=
  let sepIndex := rfind "/" p in
  let dotIndex := rfind "." p in
  if (sepIndex <? dotIndex) && has_non_dot p (sepIndex + 1) dotIndex
  then (String.substring 0 (Z.to_nat dotIndex) p,
        String.substring (Z.to_nat dotIndex)
                         (String.length p - Z.to_nat dotIndex) p)
  else (p, EmptyString).

(** [str.lower] on the ASCII letters.  The letters of [.mp4], [.csv] and
    [.pdf] have no lowercase preimage outside ASCII, so the comparisons of
    the scan see no other case mapping. *)
Definition lower_ascii (c : ascii) : ascii :=
  let n := N_of_ascii c in
  if (65 <=? n)%N && (n <=? 90)%N then ascii_of_N (n + 32) else c.

Fixpoint lower (s : string) : string :=
  match s with
  | EmptyString => EmptyString
  | String c s' => String (lower_ascii c) (lower s')
  end.

(** [os.path.splitext(filename)[1].lower()] *)
Definition extension (filename : string) : string :=
  lower (snd (splitext filename)).

(** *** The directory tree

    A directory lists its entries in enumeration order. *)

Inductive node : Type :=
  | File
  | Dir (entries : list (string * node)).

Fixpoint child (name : string) (entries : list (string * node)) : option node :=
  match entries with
  | [] => None
  | (n, x) :: rest => if String.eqb name n then Some x else child name rest
  end.

(** [os.path.join(path, name)], resolved: [None] is a path that names
    nothing. *)
Definition path_join (path : option node) (name : string) : option node :=
  match path with
  | Some (Dir entries) => child name entries
  | _ => None
  end.

Definition os_listdir (path : option node) : result (list string) :=
  match path with
  | None => Raise FileNotFoundError
  | Some File => Raise NotADirectoryError
  | Some (Dir entries) => Ok (map fst entries)
  end.

Definition os_path_isdir (path : option node) : bool :=
  match path with
  | Some (Dir _) => true
  | _ => false
  end.

(** *** The scan *)

(** [video_file], [csv_file], [pdf_file] of one folder. *)
Record buckets : Type := {
  video_file : option string;
  csv_file : option string;
  pdf_file : option string
}.

Definition no_buckets : buckets :=
  {| video_file := None; csv_file := None; pdf_file := None |}.

(** One round of [for filename in os.listdir(folder_path)]. *)
Definition classify (folder_path : option node) (b : buckets)
    (filename : string) : buckets :=
  if os_path_isdir (path_join folder_path filename) then b
  else
    let ext := extension filename in
    if String.eqb ext ".mp4" then
      {| video_file := Some filename; csv_file := csv_file b;
         pdf_file := pdf_file b |}
    else if String.eqb ext ".csv" then
      {| video_file := video_file b; csv_file := Some filename;
         pdf_file := pdf_file b |}
    else if String.eqb ext ".pdf" then
      {| video_file := video_file b; csv_file := csv_file b;
         pdf_file := Some filename |}
    else b.

Definition scan_folder (folder_path : option node) (filenames : list string)
  : buckets :=
  fold_left (classify folder_path) filenames no_buckets.

(** Truth value of a variable that holds [None] or a [str]. *)
Definition name_truthy (o : option string) : bool :=
  match o with
  | Some s => negb (String.eqb s "")
  | None => false
  end.

Definition name_of (o : option string) : string :=
  match o with
  | Some s => s
  | None => "None"
  end.

(** One element of [blasts]. *)
Record blast : Type := {
  folder : string;
  video_url : string;
  csv_url : string;
  pdf_url : string
}.

Section Scan.

(** [url_for('static', filename=...)] *)
Variable url_for_static : string -> string.

Definition blast_of (folder : string) (b : buckets) : blast :=
  {| folder := folder;
     video_url :=
       url_for_static ("blasts/" +:+ folder +:+ "/" +:+ name_of (video_file b));
     csv_url :=
       url_for_static ("blasts/" +:+ folder +:+ "/" +:+ name_of (csv_file b));
     pdf_url :=
       url_for_static ("blasts/" +:+ folder +:+ "/" +:+ name_of (pdf_file b)) |}.

(** The body of [for folder in blast_folders], [blasts] being the list built
    so far. *)
Fixpoint scan_folders (blasts_dir : option node) (blast_folders : list string)
    (blasts : list blast) : result (list blast) :=
  match blast_folders with
  | [] => Ok blasts
  | folder :: rest =>
      let folder_path := path_join blasts_dir folder in
      match os_listdir folder_path with
      | Raise e => Raise e
      | Ok filenames =>
          let b := scan_folder folder_path filenames in
          if name_truthy (video_file b) && name_truthy (csv_file b)
             && name_truthy (pdf_file b)
          then scan_folders blasts_dir rest (blasts ++ [blast_of folder b])
          else scan_folders blasts_dir rest blasts
      end
  end.

(** [list_videos], up to the call of [render_template]: the value is the
    [blasts] list handed to the template. *)
Definition list_videos (blasts_dir : option node) : result (list blast) :=
  match os_listdir blasts_dir with
  | Raise e => Raise e
  | Ok names =>
      let blast_folders :=
        List.filter (fun f => os_path_isdir (path_join blasts_dir f)) names in
      scan_folders blasts_dir blast_folders []
  end.

End Scan.

(** [/videos] as Flask serves it: 200 with the rendered page, 500 when the
    view raised. *)
Definition videos_status (r : result (list blast)) : Z :=
  match r with
  | Ok _ => 200
  | Raise _ => 500
  end.

(** ** Requests and reachable stores *)

Inductive request : Type :=
  | SaveAnnotation (now : struct_time) (request_json : pyval)
  | GetAnnotations (arg : option string)
  | SetCriticalMoment (request_json : pyval)
  | GetCriticalMoment (arg : option string)
  | ReviewAnnotations (arg : option string).

Section Server.

Variable float_of_str : string -> option float.

Definition handle (req : request) : handler response :=
  match req with
  | SaveAnnotation now j => save_annotation float_of_str now j
  | GetAnnotations a => get_annotations a
  | SetCriticalMoment j => set_critical_moment float_of_str j
  | GetCriticalMoment a => get_critical_moment a
  | ReviewAnnotations a => review_annotations a
  end.

(** The store after serving the requests in order. *)
Definition serve (reqs : list request) (db : store) : store :=
  fold_left (fun db req => snd (handle req db)) reqs db.

(** The stores the process can be in: it starts with [annotations_db = {}]
    and serves requests one after the other. *)
Inductive reachable : store -> Prop :=
  | reachable_start : reachable ∅
  | reachable_step (db : store) (req : request) :
      reachable db -> reachable (snd (handle req db)).

End Server.

(** The key a POST request writes under, if it gets that far. *)
Definition written_key (req : request) : option pykey :=
  match req with
  | SaveAnnotation _ (VDict data) | SetCriticalMoment (VDict data) =>
      let video_id := dict_get_default "video_id" data in
      if truthy video_id then to_key video_id else None
  | _ => None
  end.

(** What [get_annotations] reads for a key. *)
Definition annotations_of (k : pykey) (db : store) : list pyval :=
  match db !! k with
  | Some r => annotations r
  | None => []
  end.

(** ** A string-to-double conversion to run the handlers with

    Plain decimal literals [[+-]ddd[.ddd]], rounded to the nearest double,
    and the spellings of infinity and NaN.  [float] also takes exponents,
    surrounding whitespace, underscores and non-ASCII digits, which this
    conversion rejects; the handlers and their properties are parametric in
    the conversion, and this one only serves to evaluate them. *)

Fixpoint digits_value (s : string) (acc : Z) : option Z :=
  match s with
  | EmptyString => Some acc
  | String c s' =>
      if is_digit c
      then digits_value s' (10 * acc + (Z.of_N (N_of_ascii c) - 48))
      else None
  end.

Fixpoint split_at_dot (s : string) : string * option string :=
  match s with
  | EmptyString => (EmptyString, None)
  | String c s' =>
      if Ascii.eqb c "."
      then (EmptyString, Some s')
      else let '(a, b) := split_at_dot s' in (String c a, b)
  end.

(** [(-1)^neg * m / 10^k], correctly rounded. *)
Definition decimal_to_float (neg : bool) (m : Z) (k : nat) : float :=
  match m with
  | Zpos p =>
      SF2Prim (SFdiv prec emax (S754_finite neg p 0)
                 (S754_finite false (Z.to_pos (10 ^ Z.of_nat k)) 0))
  | _ => SF2Prim (S754_zero neg)
  end.

Definition float_of_decimal (s : string) : option float :=
  let '(neg, rest) :=
    match s with
    | String "-" r => (true, r)
    | String "+" r => (false, r)
    | _ => (false, s)
    end in
  let word := lower rest in
  if String.eqb word "inf" || String.eqb word "infinity"
  then Some (if neg then neg_infinity else infinity)
  else if String.eqb word "nan" then Some nan
  else
    let '(ip, fp) := split_at_dot rest in
    let fp' := match fp with Some x => x | None => EmptyString end in
    if String.eqb ip "" && String.eqb fp' "" then None
    else
      match digits_value (ip +:+ fp') 0 with
      | Some m => Some (decimal_to_float neg m (String.length fp'))
      | None => None
      end.

(** A clock reading to run [save_annotation] with. *)
Definition new_year_noon : struct_time :=
  {| tm_year := 2025; tm_mon := 1; tm_mday := 1;
     tm_hour := 12; tm_min := 0; tm_sec := 0 |}.

(** The URL of the static route for a plain file name, and two trees to run
    the scan on. *)
Definition static_url (filename : string) : string := "/static/" +:+ filename.

Definition blasts_A_B : list (string * node) :=
  [("A", Dir [("a.mp4", File); ("a.csv", File); ("a.pdf", File)]);
   ("B", Dir [("b.mp4", File); ("b.csv", File)])].

Definition blasts_two_videos : list (string * node) :=
  [("C", Dir [("x.mp4", File); ("c.csv", File); ("raw", Dir [("z.mp4", File)]);
              ("notes.txt", File); ("y.MP4", File); ("c.pdf", File)])].

(** ** Vocabulary of the statements *)

Definition four_digit_string (s : string) : bool :=
  match s with
  | String a (String b (String c (String d EmptyString))) =>
      is_digit a && is_digit b && is_digit c && is_digit d
  | _ => false
  end.

(** The store once [k] has its record: the effect of
    [if k not in annotations_db: annotations_db[k] = {...}]. *)
Definition ensured (k : pykey) (db : store) : store :=
  match db !! k with
  | Some _ => db
  | None => <[k := empty_record]> db
  end.

(** The record found under [k] after that. *)
Definition record_at (k : pykey) (db : store) : video_record :=
  match db !! k with
  | Some r => r
  | None => empty_record
  end.

(** A direct entry that is not a directory and carries the extension [ext]. *)
Definition is_file_with_ext (ext : string) (folder_path : option node)
    (filename : string) : bool :=
  negb (os_path_isdir (path_join folder_path filename))
  && String.eqb (extension filename) ext.

(** Those entries of a folder, in enumeration order. *)
Definition files_with_ext (ext : string) (folder_path : option node)
  : list string :=
  match os_listdir folder_path with
  | Ok filenames => List.filter (is_file_with_ext ext folder_path) filenames
  | Raise _ => []
  end.

(** A folder holding at least one file of each of the three kinds. *)
Definition complete (folder_path : option node) : Prop :=
  files_with_ext ".mp4" folder_path ≠ []
  ∧ files_with_ext ".csv" folder_path ≠ []
  ∧ files_with_ext ".pdf" folder_path ≠ [].

(** The values the store is meant to hold: a critical moment that is [None]
    or a [float], and annotation entries whose [time] is a [float]. *)
Definition entry_time_is_float (entry : pyval) : Prop :=
  ∃ d f, entry = VDict d ∧ dict_get "time" d = Some (VFloat f).

Definition record_ok (r : video_record) : Prop :=
  (critical_moment r = VNone ∨ ∃ f, critical_moment r = VFloat f)
  ∧ Forall entry_time_is_float (annotations r).

Definition store_ok (db : store) : Prop :=
  ∀ k r, db !! k = Some r → record_ok r.

(** The same with the critical moment required to be finite. *)
Definition record_finite (r : video_record) : Prop :=
  (critical_moment r = VNone
   ∨ ∃ f, critical_moment r = VFloat f ∧ is_finite f = true)
  ∧ Forall entry_time_is_float (annotations r).

(** The exceptions a failed coercion of [time] or [critical_moment] raises. *)
Definition coercion_error (e : pyexc) : Prop :=
  e = KeyError ∨ e = TypeError ∨ e = ValueError ∨ e = OverflowError.

(** The element of [blasts] a folder contributes, if any. *)
Definition emitted (url_for_static : string -> string)
    (blasts_dir : option node) (folder : string)
  : option blast :=
  let folder_path := path_join blasts_dir folder in
  match os_listdir folder_path with
  | Ok filenames =>
      let b := scan_folder folder_path filenames in
      if name_truthy (video_file b) && name_truthy (csv_file b)
         && name_truthy (pdf_file b)
      then Some (blast_of url_for_static folder b)
      else None
  | Raise _ => None
  end.

(** Does the character occur in the string? *)
Fixpoint contains (c : ascii) (s : string) : bool :=
  match s with
  | EmptyString => false
  | String a s' => Ascii.eqb a c || contains c s'
  end.

(** A tree cut below the folders of the root: what lies inside a directory
    nested in a folder is dropped, the directory itself stays. *)
Definition prune_node (x : node) : node :=
  match x with
  | File => File
  | Dir _ => Dir []
  end.

Definition prune_folder (x : node) : node :=
  match x with
  | File => File
  | Dir entries => Dir (map (fun e => (fst e, prune_node (snd e))) entries)
  end.

Definition prune_root (entries : list (string * node))
  : list (string * node) :=
  map (fun e => (fst e, prune_folder (snd e))) entries.

(** The test [if video_file and csv_file and pdf_file]. *)
Definition all_found (b : buckets) : bool :=
  name_truthy (video_file b) && name_truthy (csv_file b)
  && name_truthy (pdf_file b).

(** * Properties *)

(** ** Dictionaries *)

Lemma dict_get_set_eq (k : string) (v : pyval) (d : pydict) :
  dict_get k (dict_set k v d) = Some v.
Proof.
  induction d as [|[k' v'] d IH]; simpl.
  - by rewrite String.eqb_refl.
  - destruct (String.eqb k k') eqn:E; simpl; rewrite ?String.eqb_refl, ?E; done.
Qed.

Lemma dict_get_set_ne (k k' : string) (v : pyval) (d : pydict) :
  k ≠ k' → dict_get k' (dict_set k v d) = dict_get k' d.
Proof.
  intros Hne. induction d as [|[k0 v0] d IH]; simpl.
  - apply String.eqb_neq in Hne. by rewrite String.eqb_sym, Hne.
  - destruct (String.eqb k k0) eqn:E; simpl.
    + apply String.eqb_eq in E. subst k0.
      apply String.eqb_neq in Hne. by rewrite String.eqb_sym, Hne.
    + by rewrite IH.
Qed.

Lemma truthy_VStr (s : string) : s ≠ "" → truthy (VStr s) = true.
Proof. intros H. simpl. apply String.eqb_neq in H. by rewrite H. Qed.

(** ** The clock format *)

Lemma digit_char_is_digit (d : Z) : 0 <= d <= 9 → is_digit (digit_char d) = true.
Proof.
  intros H.
  assert (d = 0 ∨ d = 1 ∨ d = 2 ∨ d = 3 ∨ d = 4 ∨ d = 5 ∨ d = 6 ∨ d = 7
          ∨ d = 8 ∨ d = 9) as Hc by lia.
  repeat (destruct Hc as [-> | Hc]; [reflexivity|]).
  subst d. reflexivity.
Qed.

Lemma two_digits_shape (n : Z) :
  0 <= n <= 99 →
  ∃ a b, two_digits n = String a (String b EmptyString)
         ∧ is_digit a = true ∧ is_digit b = true.
Proof.
  intros H. exists (digit_char (n / 10)), (digit_char (n mod 10)).
  split; [reflexivity|].
  split; apply digit_char_is_digit; Z.to_euclidean_division_equations; lia.
Qed.

Lemma year_digits_four (y : Z) :
  1000 <= y <= 9999 → four_digit_string (year_digits y) = true.
Proof.
  intros H.
  assert (Hall : forallb
                   (fun n => four_digit_string (year_digits (1000 + Z.of_nat n)))
                   (seq 0 (Z.to_nat 9000)) = true) by (vm_compute; reflexivity).
  rewrite forallb_forall in Hall.
  specialize (Hall (Z.to_nat (y - 1000))).
  replace (1000 + Z.of_nat (Z.to_nat (y - 1000))) with y in Hall by lia.
  apply Hall, in_seq. lia.
Qed.

Local Arguments is_digit : simpl never.

Lemma strftime_format (t : struct_time) :
  valid_time t → matches_pattern timestamp_pattern (strftime t) = true.
Proof.
  intros (Hy & Hmo & Hd & Hh & Hmi & Hs).
  unfold strftime.
  pose proof (year_digits_four _ Hy) as HY.
  destruct (year_digits (tm_year t)) as [|y1 [|y2 [|y3 [|y4 [|? ?]]]]];
    try discriminate.
  cbn [four_digit_string] in HY.
  apply andb_prop in HY as [HY Hy4]. apply andb_prop in HY as [HY Hy3].
  apply andb_prop in HY as [Hy1 Hy2].
  destruct (two_digits_shape (tm_mon t)) as (a1 & a2 & -> & ? & ?); [lia|].
  destruct (two_digits_shape (tm_mday t)) as (b1 & b2 & -> & ? & ?); [lia|].
  destruct (two_digits_shape (tm_hour t)) as (c1 & c2 & -> & ? & ?); [lia|].
  destruct (two_digits_shape (tm_min t)) as (d1 & d2 & -> & ? & ?); [lia|].
  destruct (two_digits_shape (tm_sec t)) as (e1 & e2 & -> & ? & ?); [lia|].
  simpl.
  repeat match goal with H : is_digit _ = true |- _ => rewrite H; clear H end.
  reflexivity.
Qed.

Lemma strftime_nonempty (t : struct_time) : valid_time t → strftime t ≠ "".
Proof.
  intros H Heq. pose proof (strftime_format t H) as Hm.
  rewrite Heq in Hm. discriminate.
Qed.

(** ** The annotation store *)

Section StoreProperties.

Variable float_of_str : string -> option float.

Lemma ensure_record_run (k : pykey) (db : store) :
  ensure_record k db = (Ok tt, ensured k db).
Proof.
  unfold ensure_record, bind, db_contains, ensured.
  destruct (db !! k) as [r|] eqn:E.
  - rewrite bool_decide_eq_true_2 by eauto. reflexivity.
  - rewrite bool_decide_eq_false_2 by (intros [? ?]; discriminate). reflexivity.
Qed.

Lemma ensured_lookup (k : pykey) (db : store) :
  ensured k db !! k = Some (record_at k db).
Proof.
  unfold ensured, record_at. destruct (db !! k) eqn:E; [done|].
  apply lookup_insert_eq.
Qed.

Lemma ensured_lookup_ne (k k' : pykey) (db : store) :
  k ≠ k' → ensured k db !! k' = db !! k'.
Proof.
  intros Hne. unfold ensured. destruct (db !! k); [done|].
  by apply lookup_insert_ne.
Qed.

Lemma ensured_absent (k : pykey) (db : store) :
  db !! k = None → ensured k db = <[k := empty_record]> db.
Proof. intros H. unfold ensured. by rewrite H. Qed.

(** [save_annotation] read off line by line. *)
Lemma save_annotation_run (now : struct_time) (data : pydict) (db : store) :
  save_annotation float_of_str now (VDict data) db =
    let video_id := dict_get_default "video_id" data in
    if truthy video_id then
      match to_key video_id with
      | None => (Raise TypeError, db)
      | Some k =>
          let data1 := dict_set "timestamp" (VStr (strftime now)) data in
          match dict_get "time" data1 with
          | None => (Raise KeyError, ensured k db)
          | Some t =>
              match py_float float_of_str t with
              | Raise e => (Raise e, ensured k db)
              | Ok f =>
                  let data2 := dict_set "time" (VFloat f) data1 in
                  (Ok (jsonify (VDict [("status", VStr "success");
                                       ("data", VDict data2)]) 200),
                   <[k := {| annotations :=
                               annotations (record_at k db) ++ [VDict data2];
                             critical_moment :=
                               critical_moment (record_at k db) |}]>
                     (ensured k db))
              end
          end
      end
    else (Ok (jsonify no_video_id 400), db).
Proof.
  unfold save_annotation, bind, lift, hash_key, dict_getitem. simpl.
  destruct (truthy (dict_get_default "video_id" data)); [|reflexivity]. simpl.
  destruct (to_key (dict_get_default "video_id" data)) as [k|]; [|reflexivity].
  rewrite ensure_record_run.
  destruct (dict_get "time" _) as [t|]; [|reflexivity].
  destruct (py_float float_of_str t) as [f|e]; [|reflexivity].
  unfold db_getitem. rewrite ensured_lookup. reflexivity.
Qed.

(** [set_critical_moment] read off line by line. *)
Lemma set_critical_moment_run (data : pydict) (db : store) :
  set_critical_moment float_of_str (VDict data) db =
    let video_id := dict_get_default "video_id" data in
    let critical_moment_in := dict_get_default "critical_moment" data in
    if truthy video_id then
      match to_key video_id with
      | None => (Raise TypeError, db)
      | Some k =>
          match py_float float_of_str critical_moment_in with
          | Raise e => (Raise e, ensured k db)
          | Ok f =>
              (Ok (jsonify (VDict [("status", VStr "success");
                                   ("critical_moment", critical_moment_in)])
                     200),
               <[k := {| annotations := annotations (record_at k db);
                         critical_moment := VFloat f |}]> (ensured k db))
          end
      end
    else (Ok (jsonify no_video_id 400), db).
Proof.
  unfold set_critical_moment, bind, lift, hash_key. simpl.
  destruct (truthy (dict_get_default "video_id" data)); [|reflexivity]. simpl.
  destruct (to_key (dict_get_default "video_id" data)) as [k|]; [|reflexivity].
  rewrite ensure_record_run.
  destruct (py_float float_of_str _) as [f|e]; [|reflexivity].
  unfold db_getitem. rewrite ensured_lookup. reflexivity.
Qed.

(** The three reads, read off line by line. *)
Lemma get_annotations_run (arg : option string) (db : store) :
  get_annotations arg db =
    (Ok (jsonify (VList (match arg with
                         | Some v => if String.eqb v "" then []
                                     else annotations_of (KStr v) db
                         | None => []
                         end)) 200), db).
Proof.
  destruct arg as [v|]; [|reflexivity].
  unfold get_annotations, annotations_of. simpl.
  destruct (String.eqb v ""); [reflexivity|]. simpl.
  unfold bind, lift, db_contains, db_getitem. simpl.
  destruct (db !! KStr v) as [r|] eqn:E.
  - rewrite bool_decide_eq_true_2 by eauto. simpl. by rewrite E.
  - rewrite bool_decide_eq_false_2 by (intros [? ?]; discriminate). reflexivity.
Qed.

Lemma get_critical_moment_run (arg : option string) (db : store) :
  get_critical_moment arg db =
    (Ok (jsonify (VDict [("critical_moment",
                          match arg with
                          | Some v => if String.eqb v "" then VNone
                                      else critical_moment (record_at (KStr v) db)
                          | None => VNone
                          end)]) 200), db).
Proof.
  destruct arg as [v|]; [|reflexivity].
  unfold get_critical_moment, record_at. simpl.
  destruct (String.eqb v ""); [reflexivity|]. simpl.
  unfold bind, lift, db_contains, db_getitem. simpl.
  destruct (db !! KStr v) as [r|] eqn:E.
  - rewrite bool_decide_eq_true_2 by eauto. simpl. by rewrite E.
  - rewrite bool_decide_eq_false_2 by (intros [? ?]; discriminate). reflexivity.
Qed.

Lemma review_annotations_run (arg : option string) (db : store) :
  review_annotations arg db =
    (Ok (jsonify (match arg with
                  | Some v =>
                      if String.eqb v "" then no_data
                      else match db !! KStr v with
                           | Some r => VDict [("video_id", VStr v);
                                              ("annotations",
                                               VList (annotations r))]
                           | None => no_data
                           end
                  | None => no_data
                  end) 200), db).
Proof.
  destruct arg as [v|]; [|reflexivity].
  unfold review_annotations. simpl.
  destruct (String.eqb v ""); [reflexivity|]. simpl.
  unfold bind, lift, db_contains, db_getitem. simpl.
  destruct (db !! KStr v) as [r|] eqn:E.
  - rewrite bool_decide_eq_true_2 by eauto. simpl. by rewrite E.
  - rewrite bool_decide_eq_false_2 by (intros [? ?]; discriminate). reflexivity.
Qed.

Lemma save_annotation_not_dict (now : struct_time) (j : pyval) (db : store) :
  (∀ d, j ≠ VDict d) →
  save_annotation float_of_str now j db = (Raise AttributeError, db).
Proof. intros H. destruct j; try reflexivity. by destruct (H d). Qed.

Lemma set_critical_moment_not_dict (j : pyval) (db : store) :
  (∀ d, j ≠ VDict d) →
  set_critical_moment float_of_str j db = (Raise AttributeError, db).
Proof. intros H. destruct j; try reflexivity. by destruct (H d). Qed.

Lemma py_float_error (v : pyval) (e : pyexc) :
  py_float float_of_str v = Raise e → coercion_error e.
Proof.
  unfold coercion_error.
  destruct v; simpl; intros H; try (injection H as <-; tauto); try discriminate.
  - unfold float_of_int in H.
    destruct (binary_normalize _ _ _ _ _); try discriminate.
    injection H as <-. tauto.
  - destruct (float_of_str s); [discriminate|]. injection H as <-. tauto.
Qed.

(** A request leaves alone every key it does not write under. *)
Lemma handle_other_key (req : request) (k : pykey) (db : store) :
  written_key req ≠ Some k →
  snd (handle float_of_str req db) !! k = db !! k.
Proof.
  intros Hk. destruct req as [now j|a|j|a|a]; simpl.
  - destruct j; try reflexivity.
    rewrite save_annotation_run. simpl in Hk. cbv zeta.
    destruct (truthy _); [|reflexivity].
    destruct (to_key _) as [k0|]; [|reflexivity].
    assert (k0 ≠ k) by congruence.
    destruct (dict_get "time" _) as [t|]; simpl; [|by apply ensured_lookup_ne].
    destruct (py_float _ t); simpl; [|by apply ensured_lookup_ne].
    rewrite lookup_insert_ne by done. by apply ensured_lookup_ne.
  - by rewrite get_annotations_run.
  - destruct j; try reflexivity.
    rewrite set_critical_moment_run. simpl in Hk. cbv zeta.
    destruct (truthy _); [|reflexivity].
    destruct (to_key _) as [k0|]; [|reflexivity].
    assert (k0 ≠ k) by congruence.
    destruct (py_float _ _); simpl; [|by apply ensured_lookup_ne].
    rewrite lookup_insert_ne by done. by apply ensured_lookup_ne.
  - by rewrite get_critical_moment_run.
  - by rewrite review_annotations_run.
Qed.

Lemma serve_other_key (reqs : list request) (k : pykey) (db : store) :
  Forall (fun req => written_key req ≠ Some k) reqs →
  serve float_of_str reqs db !! k = db !! k.
Proof.
  intros H. revert db. induction H as [|req reqs Hreq _ IH]; intros db.
  - reflexivity.
  - simpl. rewrite IH. by apply handle_other_key.
Qed.

(** C5: a payload whose video_id is missing or empty (falsy) is answered
    with status 400 and the body [{"status": "error", "message": ...}], and
    [annotations_db] is left exactly as it was. *)
Theorem save_annotation_missing_video_id
    (now : struct_time) (data : pydict) (db : store) :
  (dict_get "video_id" data = None
   ∨ ∃ v, dict_get "video_id" data = Some v ∧ truthy v = false) →
  save_annotation float_of_str now (VDict data) db =
    (Ok {| status := 400;
           body := VDict [("status", VStr "error");
                          ("message", VStr "No video_id provided")] |},
     db).
Proof.
  intros H. rewrite save_annotation_run. cbv zeta.
  assert (truthy (dict_get_default "video_id" data) = false) as ->.
  { unfold dict_get_default. destruct H as [-> | (v & -> & Hv)]; done. }
  reflexivity.
Qed.

(** C7: for a video_id that no request has written under, the reads do not
    fail: [get_annotations] answers the empty list, [get_critical_moment]
    answers [None] (also for a record whose critical moment is unset), and
    [review_annotations] answers the no-data message with an empty
    annotation list; every read answers with status 200 and leaves the
    store as it is. *)
Theorem reads_of_unknown_video_id (reqs : list request) (v : string) :
  Forall (fun req => written_key req ≠ Some (KStr v)) reqs →
  let db := serve float_of_str reqs ∅ in
  (get_annotations (Some v) db = (Ok (jsonify (VList []) 200), db)
   ∧ get_critical_moment (Some v) db =
       (Ok (jsonify (VDict [("critical_moment", VNone)]) 200), db)
   ∧ review_annotations (Some v) db =
       (Ok (jsonify (VDict [("annotations", VList []);
                            ("message", VStr "No data for this video_id")])
              200), db))
  ∧ (∀ (db' : store) (r : video_record),
       db' !! KStr v = Some r → critical_moment r = VNone →
       get_critical_moment (Some v) db' =
         (Ok (jsonify (VDict [("critical_moment", VNone)]) 200), db'))
  ∧ (∀ (arg : option string) (db' : store),
       ∃ r1 r2 r3,
         get_annotations arg db' = (Ok (jsonify r1 200), db')
         ∧ get_critical_moment arg db' = (Ok (jsonify r2 200), db')
         ∧ review_annotations arg db' = (Ok (jsonify r3 200), db')).
Proof.
  intros Hnever db.
  assert (Hnone : db !! KStr v = None).
  { unfold db. rewrite serve_other_key by done. apply lookup_empty. }
  split; [|split].
  - rewrite get_annotations_run, get_critical_moment_run,
      review_annotations_run.
    unfold annotations_of, record_at. rewrite Hnone.
    destruct (String.eqb v ""); done.
  - intros db' r Hr Hcm. rewrite get_critical_moment_run.
    unfold record_at. rewrite Hr, Hcm. by destruct (String.eqb v "").
  - intros arg db'. eexists _, _, _.
    rewrite get_annotations_run, get_critical_moment_run,
      review_annotations_run. done.
Qed.

(** C3: for a non-empty video_id and a payload whose time coerces to a
    float, [save_annotation] answers 200 with the stored entry, and
    [get_annotations] on the same video_id then answers the earlier entries
    followed by the new one; the entry carries the time as a float and a
    non-empty server timestamp of the shape YYYY-MM-DD HH:MM:SS, keeps the
    other fields of the payload, and is the only entry when the record had
    to be created. *)
Theorem save_then_get_annotations
    (now : struct_time) (data : pydict) (v : string) (t : pyval) (f : float)
    (db : store) :
  v ≠ "" →
  dict_get "video_id" data = Some (VStr v) →
  dict_get "time" data = Some t →
  py_float float_of_str t = Ok f →
  valid_time now →
  let entry :=
    dict_set "time" (VFloat f)
      (dict_set "timestamp" (VStr (strftime now)) data) in
  let db' := snd (save_annotation float_of_str now (VDict data) db) in
  fst (save_annotation float_of_str now (VDict data) db) =
    Ok (jsonify (VDict [("status", VStr "success"); ("data", VDict entry)])
          200)
  ∧ get_annotations (Some v) db' =
      (Ok (jsonify (VList (annotations_of (KStr v) db ++ [VDict entry])) 200),
       db')
  ∧ dict_get "time" entry = Some (VFloat f)
  ∧ dict_get "timestamp" entry = Some (VStr (strftime now))
  ∧ strftime now ≠ ""
  ∧ matches_pattern timestamp_pattern (strftime now) = true
  ∧ (∀ k, k ≠ "time" → k ≠ "timestamp" → dict_get k entry = dict_get k data)
  ∧ (db !! KStr v = None → annotations_of (KStr v) db' = [VDict entry]).
Proof.
  intros Hv Hid Htime Hf Hnow entry db'.
  assert (Hrun : save_annotation float_of_str now (VDict data) db =
    (Ok (jsonify (VDict [("status", VStr "success"); ("data", VDict entry)])
           200),
     <[KStr v := {| annotations :=
                      annotations (record_at (KStr v) db) ++ [VDict entry];
                    critical_moment :=
                      critical_moment (record_at (KStr v) db) |}]>
       (ensured (KStr v) db))).
  { rewrite save_annotation_run. cbv zeta.
    unfold dict_get_default. rewrite Hid, (truthy_VStr v Hv). simpl to_key.
    cbv iota beta.
    rewrite dict_get_set_ne by done. rewrite Htime, Hf. reflexivity. }
  assert (Hnew : annotations_of (KStr v) db' =
                 (annotations_of (KStr v) db ++ [VDict entry])%list).
  { unfold db'. rewrite Hrun. simpl. unfold annotations_of at 1.
    rewrite lookup_insert_eq. simpl. unfold record_at, annotations_of.
    by destruct (db !! KStr v). }
  repeat split.
  - by rewrite Hrun.
  - rewrite get_annotations_run. apply String.eqb_neq in Hv. rewrite Hv.
    by rewrite Hnew.
  - apply dict_get_set_eq.
  - unfold entry. rewrite dict_get_set_ne by done. apply dict_get_set_eq.
  - by apply strftime_nonempty.
  - by apply strftime_format.
  - intros k Hk1 Hk2. unfold entry.
    rewrite !dict_get_set_ne by done. reflexivity.
  - intros Habs. rewrite Hnew. unfold annotations_of. by rewrite Habs.
Qed.

(** C4, amended: with a non-empty video_id and a time that is missing or
    does not coerce to a float, [save_annotation] raises [KeyError],
    [TypeError], [ValueError] or [OverflowError]; nothing catches it, so the
    request ends as a server error (500) and not as a structured 4xx
    response; the annotation sequence of that video_id is as it was. *)
Theorem save_annotation_unparseable_time
    (now : struct_time) (data : pydict) (k : pykey) (db : store) :
  truthy (dict_get_default "video_id" data) = true →
  to_key (dict_get_default "video_id" data) = Some k →
  (dict_get "time" data = None
   ∨ ∃ t e, dict_get "time" data = Some t
            ∧ py_float float_of_str t = Raise e) →
  ∃ e,
    fst (save_annotation float_of_str now (VDict data) db) = Raise e
    ∧ coercion_error e
    ∧ http_status (fst (save_annotation float_of_str now (VDict data) db))
      = 500
    ∧ annotations_of k
        (snd (save_annotation float_of_str now (VDict data) db))
      = annotations_of k db.
Proof.
  intros Htruthy Hkey Htime.
  assert (Hens : annotations_of k (ensured k db) = annotations_of k db).
  { unfold annotations_of. rewrite ensured_lookup. unfold record_at.
    by destruct (db !! k). }
  rewrite save_annotation_run. cbv zeta. rewrite Htruthy, Hkey.
  rewrite dict_get_set_ne by done.
  destruct Htime as [-> | (t & e & -> & He)].
  - exists KeyError. unfold coercion_error. simpl. tauto.
  - rewrite He. exists e. simpl. split; [done|].
    split; [by eapply py_float_error|]. done.
Qed.

(** C6, amended: for a non-empty video_id and a value that coerces to the
    float [f], [set_critical_moment] stores [f] as the record's critical
    moment, creating the record if absent and keeping its annotations;
    [get_critical_moment] then answers [f], and a later set with another
    value makes it answer that one instead.  The response carries the
    request's critical_moment as it was received, which is the stored value
    when the request sent a float. *)
Theorem set_then_get_critical_moment
    (data : pydict) (v : string) (f : float) (db : store) :
  v ≠ "" →
  dict_get "video_id" data = Some (VStr v) →
  py_float float_of_str (dict_get_default "critical_moment" data) = Ok f →
  let db' := snd (set_critical_moment float_of_str (VDict data) db) in
  fst (set_critical_moment float_of_str (VDict data) db) =
    Ok (jsonify
          (VDict [("status", VStr "success");
                  ("critical_moment", dict_get_default "critical_moment" data)])
          200)
  ∧ get_critical_moment (Some v) db' =
      (Ok (jsonify (VDict [("critical_moment", VFloat f)]) 200), db')
  ∧ annotations_of (KStr v) db' = annotations_of (KStr v) db
  ∧ (∀ f0, dict_get_default "critical_moment" data = VFloat f0 → f0 = f)
  ∧ (∀ (data2 : pydict) (f2 : float),
       dict_get "video_id" data2 = Some (VStr v) →
       py_float float_of_str (dict_get_default "critical_moment" data2)
         = Ok f2 →
       let db'' := snd (set_critical_moment float_of_str (VDict data2) db') in
       get_critical_moment (Some v) db'' =
         (Ok (jsonify (VDict [("critical_moment", VFloat f2)]) 200), db'')).
Proof.
  intros Hv Hid Hf db'.
  assert (Hset : ∀ (d : pydict) (g : float) (s : store),
    dict_get "video_id" d = Some (VStr v) →
    py_float float_of_str (dict_get_default "critical_moment" d) = Ok g →
    set_critical_moment float_of_str (VDict d) s =
      (Ok (jsonify
             (VDict [("status", VStr "success");
                     ("critical_moment", dict_get_default "critical_moment" d)])
             200),
       <[KStr v := {| annotations := annotations (record_at (KStr v) s);
                      critical_moment := VFloat g |}]> (ensured (KStr v) s))).
  { intros d g s Hd Hg. rewrite set_critical_moment_run. cbv zeta.
    unfold dict_get_default at 1 2. rewrite Hd, (truthy_VStr v Hv).
    simpl to_key. cbv iota beta. rewrite Hg. reflexivity. }
  assert (Hget : ∀ (s : store) (r : video_record),
    get_critical_moment (Some v) (<[KStr v := r]> s) =
      (Ok (jsonify (VDict [("critical_moment", critical_moment r)]) 200),
       <[KStr v := r]> s)).
  { intros s r. rewrite get_critical_moment_run.
    apply String.eqb_neq in Hv. rewrite Hv.
    unfold record_at. by rewrite lookup_insert_eq. }
  unfold db'. rewrite (Hset data f db Hid Hf). simpl fst. simpl snd.
  repeat split.
  - apply Hget.
  - unfold annotations_of at 1. rewrite lookup_insert_eq. simpl.
    unfold record_at, annotations_of. by destruct (db !! KStr v).
  - intros f0 H0. rewrite H0 in Hf. simpl in Hf. congruence.
  - intros data2 f2 Hid2 Hf2. cbv zeta.
    rewrite (Hset data2 f2 _ Hid2 Hf2). simpl snd. apply Hget.
Qed.

(** C10: for a video_id that is non-empty and has no record yet, a
    [save_annotation] whose time fails float coercion, and a
    [set_critical_moment] whose critical_moment fails it, raise the
    exception after the record has been created: the store is left with the
    record [{'annotations': [], 'critical_moment': None}] under that
    video_id. *)
Theorem failed_coercion_leaves_empty_record
    (now : struct_time) (data : pydict) (k : pykey) (e : pyexc) (db : store) :
  truthy (dict_get_default "video_id" data) = true →
  to_key (dict_get_default "video_id" data) = Some k →
  db !! k = None →
  (∀ t, dict_get "time" data = Some t →
        py_float float_of_str t = Raise e →
        save_annotation float_of_str now (VDict data) db =
          (Raise e,
           <[k := {| annotations := []; critical_moment := VNone |}]> db))
  ∧ (py_float float_of_str (dict_get_default "critical_moment" data)
       = Raise e →
     set_critical_moment float_of_str (VDict data) db =
       (Raise e,
        <[k := {| annotations := []; critical_moment := VNone |}]> db)).
Proof.
  intros Htruthy Hkey Habs. split.
  - intros t Ht He. rewrite save_annotation_run. cbv zeta.
    rewrite Htruthy, Hkey. rewrite dict_get_set_ne by done.
    rewrite Ht, He. by rewrite ensured_absent.
  - intros He. rewrite set_critical_moment_run. cbv zeta.
    rewrite Htruthy, Hkey, He. by rewrite ensured_absent.
Qed.

Lemma record_ok_empty : record_ok empty_record.
Proof. split; [by left | constructor]. Qed.

Lemma record_at_ok (k : pykey) (db : store) :
  store_ok db → record_ok (record_at k db).
Proof.
  intros Hdb. unfold record_at. destruct (db !! k) as [r|] eqn:E.
  - by apply (Hdb k).
  - apply record_ok_empty.
Qed.

Lemma store_ok_insert (k : pykey) (r : video_record) (db : store) :
  record_ok r → store_ok db → store_ok (<[k := r]> db).
Proof.
  intros Hr Hdb k' r' Hlook.
  destruct (decide (k = k')) as [<- | Hne].
  - rewrite lookup_insert_eq in Hlook. by injection Hlook as <-.
  - rewrite lookup_insert_ne in Hlook by done. by apply (Hdb k').
Qed.

Lemma store_ok_ensured (k : pykey) (db : store) :
  store_ok db → store_ok (ensured k db).
Proof.
  intros Hdb. unfold ensured. destruct (db !! k); [done|].
  apply store_ok_insert; [apply record_ok_empty | done].
Qed.

(** Every request keeps the store well formed, whether it succeeds or
    raises. *)
Lemma handle_store_ok (req : request) (db : store) :
  store_ok db → store_ok (snd (handle float_of_str req db)).
Proof.
  intros Hdb. destruct req as [now j|a|j|a|a]; simpl.
  - destruct j; try exact Hdb.
    rewrite save_annotation_run. cbv zeta.
    destruct (truthy _); [|exact Hdb].
    destruct (to_key _) as [k|]; [|exact Hdb].
    destruct (dict_get "time" _) as [t|]; simpl; [|by apply store_ok_ensured].
    destruct (py_float _ t) as [f|e]; simpl; [|by apply store_ok_ensured].
    apply store_ok_insert; [|by apply store_ok_ensured].
    destruct (record_at_ok k db Hdb) as [Hcm Hann].
    split; [exact Hcm|]. simpl.
    apply Forall_app. split; [exact Hann|].
    constructor; [|constructor].
    eexists _, f. split; [reflexivity|]. apply dict_get_set_eq.
  - by rewrite get_annotations_run.
  - destruct j; try exact Hdb.
    rewrite set_critical_moment_run. cbv zeta.
    destruct (truthy _); [|exact Hdb].
    destruct (to_key _) as [k|]; [|exact Hdb].
    destruct (py_float _ _) as [f|e]; simpl; [|by apply store_ok_ensured].
    apply store_ok_insert; [|by apply store_ok_ensured].
    destruct (record_at_ok k db Hdb) as [Hcm Hann].
    split; [right; by exists f | exact Hann].
  - by rewrite get_critical_moment_run.
  - by rewrite review_annotations_run.
Qed.

Lemma record_at_ensured (k k' : pykey) (db : store) :
  record_at k' (ensured k db) = record_at k' db.
Proof.
  unfold record_at. destruct (decide (k = k')) as [<- | Hne].
  - rewrite ensured_lookup. unfold record_at. by destruct (db !! k).
  - by rewrite ensured_lookup_ne.
Qed.

(** C8, amended: in every store the process can reach, each record's
    critical_moment is [None] or a float, and every stored annotation entry
    has a float under [time]; the float is whatever the coercion returned,
    which need not be finite.  A request whose time or critical_moment
    cannot be coerced stores nothing: every video_id reads as before. *)
Theorem reachable_store_ok (db : store) :
  reachable float_of_str db →
  store_ok db
  ∧ (∀ (now : struct_time) (data : pydict) (t : pyval) (e : pyexc)
       (k : pykey),
       dict_get "time" data = Some t →
       py_float float_of_str t = Raise e →
       record_at k (snd (save_annotation float_of_str now (VDict data) db))
       = record_at k db)
  ∧ (∀ (data : pydict) (e : pyexc) (k : pykey),
       py_float float_of_str (dict_get_default "critical_moment" data)
         = Raise e →
       record_at k (snd (set_critical_moment float_of_str (VDict data) db))
       = record_at k db).
Proof.
  intros Hreach. split; [|split].
  - induction Hreach as [|db req _ IH].
    + intros k r Hlook. by rewrite lookup_empty in Hlook.
    + by apply handle_store_ok.
  - intros now data t e k Ht He. rewrite save_annotation_run. cbv zeta.
    destruct (truthy _); [|done].
    destruct (to_key _); [|done].
    rewrite dict_get_set_ne by done. rewrite Ht, He. simpl.
    apply record_at_ensured.
  - intros data e k He. rewrite set_critical_moment_run. cbv zeta.
    destruct (truthy _); [|done].
    destruct (to_key _); [|done].
    rewrite He. simpl. apply record_at_ensured.
Qed.

End StoreProperties.

(** ** The store on concrete requests *)

Lemma save_annotation_missing_video_id_witness :
  save_annotation float_of_decimal new_year_noon
    (VDict [("time", VStr "12.34"); ("comment", VStr "rock")]) ∅ =
    (Ok {| status := 400;
           body := VDict [("status", VStr "error");
                          ("message", VStr "No video_id provided")] |},
     ∅).
Proof.
  apply (save_annotation_missing_video_id float_of_decimal new_year_noon
           [("time", VStr "12.34"); ("comment", VStr "rock")] ∅).
  left. reflexivity.
Defined.

Lemma reads_of_unknown_video_id_witness :
  let db :=
    serve float_of_decimal
      [SaveAnnotation new_year_noon
         (VDict [("video_id", VStr "v1"); ("time", VStr "12.34")])] ∅ in
  get_annotations (Some "v2") db = (Ok (jsonify (VList []) 200), db).
Proof.
  refine (proj1 (proj1
    (reads_of_unknown_video_id float_of_decimal
       [SaveAnnotation new_year_noon
          (VDict [("video_id", VStr "v1"); ("time", VStr "12.34")])]
       "v2" _))).
  constructor; [|constructor]. simpl. discriminate.
Defined.

Lemma save_then_get_annotations_witness :
  let data := [("video_id", VStr "v1"); ("time", VStr "12.34");
               ("comment", VStr "rock"); ("user", VStr "Alice")] in
  let db' := snd (save_annotation float_of_decimal new_year_noon
                    (VDict data) ∅) in
  get_annotations (Some "v1") db' =
    (Ok (jsonify
           (VList [VDict [("video_id", VStr "v1");
                          ("time", VFloat 0x1.8ae147ae147aep+3);
                          ("comment", VStr "rock"); ("user", VStr "Alice");
                          ("timestamp", VStr "2025-01-01 12:00:00")]]) 200),
     db').
Proof.
  refine (proj1 (proj2
    (save_then_get_annotations float_of_decimal new_year_noon
       [("video_id", VStr "v1"); ("time", VStr "12.34");
        ("comment", VStr "rock"); ("user", VStr "Alice")]
       "v1" (VStr "12.34") 0x1.8ae147ae147aep+3 ∅ _ _ _ _ _))).
  - discriminate.
  - reflexivity.
  - reflexivity.
  - vm_compute. reflexivity.
  - unfold valid_time. simpl. lia.
Defined.

Lemma save_annotation_unparseable_time_witness :
  ∃ e,
    fst (save_annotation float_of_decimal new_year_noon
           (VDict [("video_id", VStr "v1"); ("time", VStr "abc")]) ∅)
    = Raise e
    ∧ coercion_error e
    ∧ http_status
        (fst (save_annotation float_of_decimal new_year_noon
                (VDict [("video_id", VStr "v1"); ("time", VStr "abc")]) ∅))
      = 500
    ∧ annotations_of (KStr "v1")
        (snd (save_annotation float_of_decimal new_year_noon
                (VDict [("video_id", VStr "v1"); ("time", VStr "abc")]) ∅))
      = annotations_of (KStr "v1") ∅.
Proof.
  apply (save_annotation_unparseable_time float_of_decimal new_year_noon
           [("video_id", VStr "v1"); ("time", VStr "abc")] (KStr "v1") ∅).
  - reflexivity.
  - reflexivity.
  - right. exists (VStr "abc"), ValueError. split; reflexivity.
Defined.

(** C4 as stated fails on [{"video_id": "v1", "time": "abc"}]: [float("abc")]
    raises [ValueError] out of the view, the request ends with status 500,
    and there is no response body with a message. *)
Lemma save_annotation_bad_time_is_server_error :
  let r := fst (save_annotation float_of_decimal new_year_noon
                  (VDict [("video_id", VStr "v1"); ("time", VStr "abc")]) ∅) in
  r = Raise ValueError
  ∧ http_status r = 500
  ∧ ¬ (400 <= http_status r < 500)
  ∧ ∀ resp, r ≠ Ok resp.
Proof.
  cbv zeta.
  assert (fst (save_annotation float_of_decimal new_year_noon
                 (VDict [("video_id", VStr "v1"); ("time", VStr "abc")]) ∅)
          = Raise ValueError) as -> by reflexivity.
  simpl. repeat split; [lia | discriminate].
Qed.

Lemma set_then_get_critical_moment_witness :
  let db' := snd (set_critical_moment float_of_decimal
                    (VDict [("video_id", VStr "v1");
                            ("critical_moment", VFloat 5)]) ∅) in
  get_critical_moment (Some "v1") db' =
    (Ok (jsonify (VDict [("critical_moment", VFloat 5)]) 200), db').
Proof.
  refine (proj1 (proj2
    (set_then_get_critical_moment float_of_decimal
       [("video_id", VStr "v1"); ("critical_moment", VFloat 5)]
       "v1" 5%float ∅ _ _ _))).
  - discriminate.
  - reflexivity.
  - reflexivity.
Defined.

(** C6 as stated fails on [{"video_id": "v1", "critical_moment": "7.5"}]:
    the response carries the string ["7.5"] of the request, the store holds
    the float [7.5]. *)
Lemma set_critical_moment_response_echoes_request :
  let req := VDict [("video_id", VStr "v1"); ("critical_moment", VStr "7.5")] in
  let db' := snd (set_critical_moment float_of_decimal req ∅) in
  fst (set_critical_moment float_of_decimal req ∅) =
    Ok (jsonify (VDict [("status", VStr "success");
                        ("critical_moment", VStr "7.5")]) 200)
  ∧ fst (get_critical_moment (Some "v1") db') =
      Ok (jsonify (VDict [("critical_moment", VFloat 7.5)]) 200)
  ∧ VStr "7.5" ≠ VFloat 7.5.
Proof.
  cbv zeta. split; [reflexivity|]. split; [|discriminate].
  rewrite get_critical_moment_run, set_critical_moment_run. simpl.
  unfold record_at. rewrite lookup_insert_eq. reflexivity.
Qed.

Lemma reachable_store_ok_witness :
  store_ok
    (snd (handle float_of_decimal
            (SaveAnnotation new_year_noon
               (VDict [("video_id", VStr "v1"); ("time", VStr "12.34")]))
            ∅)).
Proof.
  refine (proj1
    (reachable_store_ok float_of_decimal
       (snd (handle float_of_decimal
               (SaveAnnotation new_year_noon
                  (VDict [("video_id", VStr "v1"); ("time", VStr "12.34")]))
               ∅)) _)).
  apply reachable_step. apply reachable_start.
Defined.

(** C8 as stated fails on [{"video_id": "v1", "critical_moment": "inf"}]
    sent to a fresh process: [float("inf")] succeeds, and the store then
    holds a critical moment that is not finite. *)
Lemma reachable_critical_moment_not_finite :
  let db :=
    snd (handle float_of_decimal
           (SetCriticalMoment
              (VDict [("video_id", VStr "v1"); ("critical_moment", VStr "inf")]))
           ∅) in
  reachable float_of_decimal db
  ∧ ∃ r, db !! KStr "v1" = Some r
         ∧ critical_moment r = VFloat infinity
         ∧ is_finite infinity = false
         ∧ ¬ record_finite r.
Proof.
  cbv zeta. split; [apply reachable_step, reachable_start|].
  exists {| annotations := []; critical_moment := VFloat infinity |}.
  split.
  { simpl. rewrite set_critical_moment_run. simpl.
    rewrite lookup_insert_eq. reflexivity. }
  split; [reflexivity|]. split; [reflexivity|].
  intros [[Hnone | (f & Hf & Hfin)] _]; [discriminate|].
  simpl in Hf. injection Hf as <-. vm_compute in Hfin. discriminate.
Qed.

Lemma failed_coercion_leaves_empty_record_witness :
  save_annotation float_of_decimal new_year_noon
    (VDict [("video_id", VStr "v1"); ("time", VStr "abc");
            ("critical_moment", VStr "soon")]) ∅ =
    (Raise ValueError,
     <[KStr "v1" := {| annotations := []; critical_moment := VNone |}]> ∅).
Proof.
  refine (proj1
    (failed_coercion_leaves_empty_record float_of_decimal new_year_noon
       [("video_id", VStr "v1"); ("time", VStr "abc");
        ("critical_moment", VStr "soon")]
       (KStr "v1") ValueError ∅ _ _ _) (VStr "abc") _ _).
  - reflexivity.
  - reflexivity.
  - apply lookup_empty.
  - reflexivity.
  - reflexivity.
Defined.

(** ** The asset scan *)

Lemma extension_nonempty_name (filename ext : string) :
  extension filename = ext → ext ≠ "" → filename ≠ "".
Proof. intros <- Hext ->. by apply Hext. Qed.

Lemma is_file_with_ext_truthy (ext : string) (p : option node) (x : string) :
  ext ≠ "" → is_file_with_ext ext p x = true → name_truthy (Some x) = true.
Proof.
  intros Hext H. apply andb_prop in H as [_ H]. apply String.eqb_eq in H.
  simpl. apply negb_true_iff, String.eqb_neq.
  by eapply extension_nonempty_name.
Qed.

(** The loop over one folder keeps, per bucket, the last matching entry. *)
Lemma scan_folder_last (p : option node) (filenames : list string) :
  scan_folder p filenames =
    {| video_file := last (List.filter (is_file_with_ext ".mp4" p) filenames);
       csv_file := last (List.filter (is_file_with_ext ".csv" p) filenames);
       pdf_file := last (List.filter (is_file_with_ext ".pdf" p) filenames) |}.
Proof.
  unfold scan_folder.
  induction filenames as [|x l IH] using rev_ind; [reflexivity|].
  rewrite fold_left_app, IH, !List.filter_app. simpl.
  unfold classify, is_file_with_ext.
  destruct (os_path_isdir (path_join p x)); simpl.
  { by rewrite !app_nil_r. }
  destruct (String.eqb (extension x) ".mp4") eqn:E1.
  { apply String.eqb_eq in E1. rewrite E1. simpl.
    by rewrite last_snoc, !app_nil_r. }
  destruct (String.eqb (extension x) ".csv") eqn:E2.
  { apply String.eqb_eq in E2. rewrite E2. simpl.
    by rewrite last_snoc, !app_nil_r. }
  destruct (String.eqb (extension x) ".pdf") eqn:E3.
  { simpl. by rewrite last_snoc, !app_nil_r. }
  by rewrite !app_nil_r.
Qed.

Lemma last_filter_truthy (ext : string) (p : option node) (l : list string) :
  ext ≠ "" →
  name_truthy (last (List.filter (is_file_with_ext ext p) l)) = true
  ↔ List.filter (is_file_with_ext ext p) l ≠ [].
Proof.
  intros Hext. split.
  - intros H Hnil. rewrite Hnil in H. discriminate.
  - intros Hne.
    destruct (last (List.filter (is_file_with_ext ext p) l)) as [x|] eqn:E.
    + apply last_Some_elem_of, list_elem_of_In, List.filter_In in E as [_ E].
      by eapply is_file_with_ext_truthy.
    + by apply last_None in E.
Qed.

Section ScanProperties.

Variable url_for_static : string -> string.

Lemma scan_folders_emitted (blasts_dir : option node)
    (blast_folders : list string) (blasts : list blast) :
  Forall (fun f => os_path_isdir (path_join blasts_dir f) = true)
         blast_folders →
  scan_folders url_for_static blasts_dir blast_folders blasts =
    Ok (blasts ++ omap (emitted url_for_static blasts_dir) blast_folders)%list.
Proof.
  intros H. revert blasts.
  induction H as [|f l Hf _ IH]; intros blasts; simpl.
  - by rewrite app_nil_r.
  - unfold emitted.
    destruct (path_join blasts_dir f) as [[|es]|] eqn:E; try discriminate.
    simpl.
    destruct (name_truthy _ && name_truthy _ && name_truthy _).
    + rewrite IH, <- app_assoc. reflexivity.
    + by rewrite IH.
Qed.

Lemma emitted_complete (blasts_dir : option node) (f : string) :
  os_path_isdir (path_join blasts_dir f) = true →
  (∃ b, emitted url_for_static blasts_dir f = Some b) ↔ complete (path_join blasts_dir f).
Proof.
  intros Hdir. unfold emitted, complete, files_with_ext.
  destruct (path_join blasts_dir f) as [[|es]|] eqn:E; try discriminate.
  simpl os_listdir. cbv beta iota zeta. rewrite scan_folder_last. simpl.
  rewrite <- !last_filter_truthy by discriminate.
  destruct (name_truthy (last (List.filter (is_file_with_ext ".mp4" _) _)));
  destruct (name_truthy (last (List.filter (is_file_with_ext ".csv" _) _)));
  destruct (name_truthy (last (List.filter (is_file_with_ext ".pdf" _) _)));
    simpl; split; try (intros [b Hb]; discriminate); try (intros (?&?&?); discriminate);
    eauto.
Qed.

Lemma emitted_folder (blasts_dir : option node) (f : string) (b : blast) :
  emitted url_for_static blasts_dir f = Some b → folder b = f.
Proof.
  unfold emitted. destruct (os_listdir _); [|discriminate]. cbv zeta.
  destruct (_ && _); [|discriminate]. by intros [= <-].
Qed.

Lemma list_videos_emitted (entries : list (string * node)) :
  list_videos url_for_static (Some (Dir entries)) =
    Ok (omap (emitted url_for_static (Some (Dir entries)))
             (List.filter
                (fun f => os_path_isdir (path_join (Some (Dir entries)) f))
                (map fst entries))).
Proof.
  unfold list_videos. simpl os_listdir. cbv beta iota zeta.
  rewrite scan_folders_emitted; [reflexivity|].
  apply List.Forall_forall. intros f Hf. by apply List.filter_In in Hf as [_ Hf].
Qed.

(** C1: for a root that is a directory the scan returns a list of triples,
    and it holds a triple for the name [f] exactly when [f] is an entry of
    the root that is a directory and whose direct non-directory entries
    include a file of each of the lowercased extensions .mp4, .csv and .pdf;
    a folder lacking one of them has no triple. *)
Theorem list_videos_complete_folders (entries : list (string * node)) :
  ∃ blasts,
    list_videos url_for_static (Some (Dir entries)) = Ok blasts
    ∧ ∀ f,
        (∃ b, b ∈ blasts ∧ folder b = f)
        ↔ (f ∈ map fst entries
           ∧ os_path_isdir (child f entries) = true
           ∧ files_with_ext ".mp4" (child f entries) ≠ []
           ∧ files_with_ext ".csv" (child f entries) ≠ []
           ∧ files_with_ext ".pdf" (child f entries) ≠ []).
Proof.
  eexists. split; [apply list_videos_emitted|].
  intros f. split.
  - intros (b & Hb & Hf).
    apply list_elem_of_omap in Hb as (g & Hg & Hem).
    pose proof (emitted_folder _ _ _ Hem) as Hfg.
    assert (g = f) as -> by congruence.
    apply list_elem_of_In, List.filter_In in Hg as [Hin Hdir].
    split; [by apply list_elem_of_In|]. split; [exact Hdir|].
    apply (emitted_complete (Some (Dir entries)) f Hdir). eauto.
  - intros (Hin & Hdir & Hcomplete).
    destruct (proj2 (emitted_complete (Some (Dir entries)) f Hdir) Hcomplete)
      as [b Hb].
    exists b. split; [|by eapply emitted_folder].
    apply list_elem_of_omap. exists f. split; [|exact Hb].
    apply list_elem_of_In, List.filter_In. split; [|exact Hdir].
    by apply list_elem_of_In.
Qed.

(** C2: entries that are directories or carry none of the three extensions
    leave the buckets as they are; the scan of a folder ends with, per
    bucket, the last matching file in enumeration order; and each emitted
    triple refers to exactly those three files. *)
Theorem scan_takes_last_match
    (entries : list (string * node)) (blasts : list blast) (b : blast) :
  list_videos url_for_static (Some (Dir entries)) = Ok blasts →
  b ∈ blasts →
  (∀ (p : option node) (bk : buckets) (x : string),
     os_path_isdir (path_join p x) = true
     ∨ (extension x ≠ ".mp4" ∧ extension x ≠ ".csv" ∧ extension x ≠ ".pdf") →
     classify p bk x = bk)
  ∧ (∀ (p : option node) (filenames : list string),
       scan_folder p filenames =
         {| video_file :=
              last (List.filter (is_file_with_ext ".mp4" p) filenames);
            csv_file :=
              last (List.filter (is_file_with_ext ".csv" p) filenames);
            pdf_file :=
              last (List.filter (is_file_with_ext ".pdf" p) filenames) |})
  ∧ ∃ v c d,
      last (files_with_ext ".mp4" (child (folder b) entries)) = Some v
      ∧ last (files_with_ext ".csv" (child (folder b) entries)) = Some c
      ∧ last (files_with_ext ".pdf" (child (folder b) entries)) = Some d
      ∧ video_url b =
          url_for_static ("blasts/" +:+ folder b +:+ "/" +:+ v)
      ∧ csv_url b =
          url_for_static ("blasts/" +:+ folder b +:+ "/" +:+ c)
      ∧ pdf_url b =
          url_for_static ("blasts/" +:+ folder b +:+ "/" +:+ d).
Proof.
  intros Hscan Hb. split; [|split].
  - intros p bk x [Hdir | (H1 & H2 & H3)]; unfold classify.
    + by rewrite Hdir.
    + apply String.eqb_neq in H1, H2, H3. rewrite H1, H2, H3.
      by destruct (os_path_isdir _).
  - apply scan_folder_last.
  - rewrite list_videos_emitted in Hscan. injection Hscan as <-.
    apply list_elem_of_omap in Hb as (g & Hg & Hem).
    pose proof (emitted_folder _ _ _ Hem) as Hfg. rewrite Hfg.
    apply list_elem_of_In, List.filter_In in Hg as [_ Hdir].
    unfold emitted, files_with_ext in *. simpl path_join in *.
    destruct (child g entries) as [[|es]|]; try discriminate.
    simpl os_listdir in *. cbv beta iota zeta in Hem |- *.
    rewrite scan_folder_last in Hem. simpl in Hem.
    destruct (last (List.filter (is_file_with_ext ".mp4" _) _)) as [v|];
      [|discriminate].
    destruct (last (List.filter (is_file_with_ext ".csv" _) _)) as [c|];
      [|by rewrite andb_false_r in Hem].
    destruct (last (List.filter (is_file_with_ext ".pdf" _) _)) as [d|];
      [|by rewrite andb_false_r in Hem].
    destruct (_ && _); [|discriminate].
    injection Hem as <-. exists v, c, d. done.
Qed.

(** C9: when the root does not exist or is not a directory, [os.listdir]
    raises an [OSError] that nothing catches: the scan returns no list, in
    particular not the empty one, and the request ends as a server error. *)
Theorem list_videos_bad_root (root : option node) :
  root = None ∨ root = Some File →
  ∃ e,
    list_videos url_for_static root = Raise e
    ∧ is_OSError e = true
    ∧ videos_status (list_videos url_for_static root) = 500
    ∧ list_videos url_for_static root ≠ Ok [].
Proof.
  intros [-> | ->].
  - exists FileNotFoundError. done.
  - exists NotADirectoryError. done.
Qed.

End ScanProperties.

(** ** The scan on concrete trees *)

(** The scenario of two folders: [A] has the three files, [B] lacks the
    document. *)
Example list_videos_A_B :
  list_videos static_url (Some (Dir blasts_A_B)) =
    Ok [{| folder := "A";
           video_url := "/static/blasts/A/a.mp4";
           csv_url := "/static/blasts/A/a.csv";
           pdf_url := "/static/blasts/A/a.pdf" |}].
Proof. reflexivity. Qed.

(** A hidden file named [.mp4] has no extension for [splitext]. *)
Example splitext_leading_dot :
  splitext ".mp4" = (".mp4", "") ∧ splitext "a.b.MP4" = ("a.b", ".MP4").
Proof. split; reflexivity. Qed.

Lemma scan_takes_last_match_witness :
  let b := {| folder := "C";
              video_url := "/static/blasts/C/y.MP4";
              csv_url := "/static/blasts/C/c.csv";
              pdf_url := "/static/blasts/C/c.pdf" |} in
  ∃ v c d,
    last (files_with_ext ".mp4" (child (folder b) blasts_two_videos)) = Some v
    ∧ last (files_with_ext ".csv" (child (folder b) blasts_two_videos))
      = Some c
    ∧ last (files_with_ext ".pdf" (child (folder b) blasts_two_videos))
      = Some d
    ∧ video_url b = static_url ("blasts/" +:+ folder b +:+ "/" +:+ v)
    ∧ csv_url b = static_url ("blasts/" +:+ folder b +:+ "/" +:+ c)
    ∧ pdf_url b = static_url ("blasts/" +:+ folder b +:+ "/" +:+ d).
Proof.
  refine (proj2 (proj2
    (scan_takes_last_match static_url blasts_two_videos
       [{| folder := "C";
           video_url := "/static/blasts/C/y.MP4";
           csv_url := "/static/blasts/C/c.csv";
           pdf_url := "/static/blasts/C/c.pdf" |}]
       {| folder := "C";
          video_url := "/static/blasts/C/y.MP4";
          csv_url := "/static/blasts/C/c.csv";
          pdf_url := "/static/blasts/C/c.pdf" |} _ _))).
  - reflexivity.
  - apply list_elem_of_here.
Defined.

Lemma list_videos_bad_root_witness :
  ∃ e,
    list_videos static_url None = Raise e
    ∧ is_OSError e = true
    ∧ videos_status (list_videos static_url None) = 500
    ∧ list_videos static_url None ≠ Ok [].
Proof.
  apply (list_videos_bad_root static_url None). left. reflexivity.
Defined.

(** * Further properties of the handlers *)

Lemma annotations_of_record_at (k : pykey) (db : store) :
  annotations_of k db = annotations (record_at k db).
Proof. unfold annotations_of, record_at. by destruct (db !! k). Qed.

Lemma record_at_insert (k k' : pykey) (r : video_record) (db : store) :
  record_at k' (<[k := r]> db) = if decide (k = k') then r else record_at k' db.
Proof.
  unfold record_at. destruct (decide (k = k')) as [<- | Hne].
  - by rewrite lookup_insert_eq.
  - by rewrite lookup_insert_ne.
Qed.

Lemma to_key_KStr (v : pyval) (s : string) :
  to_key v = Some (KStr s) → v = VStr s.
Proof.
  destruct v; simpl; try discriminate.
  - destruct (Prim2SF f); discriminate.
  - by intros [= ->].
Qed.

Section StoreFrames.

Variable float_of_str : string -> option float.

(** What the three reads answer depends on the record under the key only. *)
Lemma reads_same_record (w : string) (db db' : store) :
  db' !! KStr w = db !! KStr w →
  fst (get_annotations (Some w) db') = fst (get_annotations (Some w) db)
  ∧ fst (get_critical_moment (Some w) db')
    = fst (get_critical_moment (Some w) db)
  ∧ fst (review_annotations (Some w) db')
    = fst (review_annotations (Some w) db).
Proof.
  intros H.
  rewrite !get_annotations_run, !get_critical_moment_run,
    !review_annotations_run.
  unfold annotations_of, record_at. by rewrite H.
Qed.

(** X1: a request that does not write under the video_id [w] changes none
    of the answers of the three reads for [w]; in particular a POST for one
    video leaves every other video as it was, whether the POST succeeds or
    raises. *)
Theorem writes_are_per_video (req : request) (w : string) (db : store) :
  written_key req ≠ Some (KStr w) →
  let db' := snd (handle float_of_str req db) in
  fst (get_annotations (Some w) db') = fst (get_annotations (Some w) db)
  ∧ fst (get_critical_moment (Some w) db')
    = fst (get_critical_moment (Some w) db)
  ∧ fst (review_annotations (Some w) db')
    = fst (review_annotations (Some w) db).
Proof.
  intros H db'. apply reads_same_record. by apply handle_other_key.
Qed.

(** X2: a POST whose video_id is not a JSON string (a number, [true]) is
    stored under a key no GET can name: for every query argument the three
    reads answer after it what they answered before. *)
Theorem non_string_video_id_is_unreadable
    (now : struct_time) (data : pydict) (arg : option string) (db : store) :
  (∀ s, dict_get_default "video_id" data ≠ VStr s) →
  let db1 := snd (save_annotation float_of_str now (VDict data) db) in
  let db2 := snd (set_critical_moment float_of_str (VDict data) db) in
  (fst (get_annotations arg db1) = fst (get_annotations arg db)
   ∧ fst (get_critical_moment arg db1) = fst (get_critical_moment arg db)
   ∧ fst (review_annotations arg db1) = fst (review_annotations arg db))
  ∧ (fst (get_annotations arg db2) = fst (get_annotations arg db)
     ∧ fst (get_critical_moment arg db2) = fst (get_critical_moment arg db)
     ∧ fst (review_annotations arg db2) = fst (review_annotations arg db)).
Proof.
  intros Hid db1 db2.
  destruct arg as [w|].
  2:{ rewrite !get_annotations_run, !get_critical_moment_run,
        !review_annotations_run. done. }
  assert (Hw : ∀ req, (∃ n, req = SaveAnnotation n (VDict data))
                      ∨ req = SetCriticalMoment (VDict data) →
                      written_key req ≠ Some (KStr w)).
  { intros req Hreq Hk.
    assert (written_key req =
            if truthy (dict_get_default "video_id" data)
            then to_key (dict_get_default "video_id" data) else None) as Hwk.
    { by destruct Hreq as [[n ->] | ->]. }
    rewrite Hwk in Hk. destruct (truthy _); [|discriminate].
    apply to_key_KStr in Hk. by apply (Hid w). }
  split; apply reads_same_record.
  - apply (handle_other_key float_of_str (SaveAnnotation now (VDict data))).
    apply Hw. left. by exists now.
  - apply (handle_other_key float_of_str (SetCriticalMoment (VDict data))).
    apply Hw. by right.
Qed.

(** The record under any key after one request: its annotations are the
    earlier ones, possibly with one entry more. *)
Lemma handle_annotations_prefix (req : request) (k : pykey) (db : store) :
  annotations_of k db `prefix_of`
    annotations_of k (snd (handle float_of_str req db)).
Proof.
  rewrite !annotations_of_record_at.
  destruct req as [now j|a|j|a|a]; simpl.
  - destruct j; try done.
    rewrite save_annotation_run. cbv zeta.
    destruct (truthy _); [|done].
    destruct (to_key _) as [k0|]; [|done].
    destruct (dict_get "time" _) as [t|]; simpl;
      [|by rewrite record_at_ensured].
    destruct (py_float _ t) as [f|e]; simpl; [|by rewrite record_at_ensured].
    rewrite record_at_insert. destruct (decide (k0 = k)) as [<- | Hne].
    + simpl. by apply prefix_app_r.
    + by rewrite record_at_ensured.
  - by rewrite get_annotations_run.
  - destruct j; try done.
    rewrite set_critical_moment_run. cbv zeta.
    destruct (truthy _); [|done].
    destruct (to_key _) as [k0|]; [|done].
    destruct (py_float _ _) as [f|e]; simpl; [|by rewrite record_at_ensured].
    rewrite record_at_insert. destruct (decide (k0 = k)) as [<- | Hne].
    + done.
    + by rewrite record_at_ensured.
  - by rewrite get_critical_moment_run.
  - by rewrite review_annotations_run.
Qed.

Lemma handle_keeps_keys (req : request) (k : pykey) (db : store) :
  is_Some (db !! k) → is_Some (snd (handle float_of_str req db) !! k).
Proof.
  intros Hk.
  assert (Hens : ∀ k0, is_Some (ensured k0 db !! k)).
  { intros k0. destruct (decide (k0 = k)) as [<- | Hne].
    - rewrite ensured_lookup. eauto.
    - by rewrite ensured_lookup_ne. }
  assert (Hins : ∀ k0 r, is_Some (<[k0 := r]> (ensured k0 db) !! k)).
  { intros k0 r. destruct (decide (k0 = k)) as [<- | Hne].
    - rewrite lookup_insert_eq. eauto.
    - rewrite lookup_insert_ne by done. apply Hens. }
  destruct req as [now j|a|j|a|a]; simpl.
  - destruct j; try done.
    rewrite save_annotation_run. cbv zeta.
    destruct (truthy _); [|done].
    destruct (to_key _) as [k0|]; [|done].
    destruct (dict_get "time" _) as [t|]; simpl; [|apply Hens].
    destruct (py_float _ t) as [f|e]; simpl; [apply Hins | apply Hens].
  - by rewrite get_annotations_run.
  - destruct j; try done.
    rewrite set_critical_moment_run. cbv zeta.
    destruct (truthy _); [|done].
    destruct (to_key _) as [k0|]; [|done].
    destruct (py_float _ _) as [f|e]; simpl; [apply Hins | apply Hens].
  - by rewrite get_critical_moment_run.
  - by rewrite review_annotations_run.
Qed.

(** X3: the store is append-only.  Whatever requests are served, succeeding
    or raising, a record that exists stays, and the annotations a video_id
    had remain, unaltered and in the same order, at the front of the
    annotations it has afterwards. *)
Theorem annotations_only_grow (reqs : list request) (k : pykey) (db : store) :
  annotations_of k db `prefix_of` annotations_of k (serve float_of_str reqs db)
  ∧ (is_Some (db !! k) → is_Some (serve float_of_str reqs db !! k)).
Proof.
  revert db. induction reqs as [|req reqs IH]; intros db; simpl.
  - done.
  - destruct (IH (snd (handle float_of_str req db))) as [IH1 IH2]. split.
    + etrans; [apply handle_annotations_prefix | exact IH1].
    + intros Hk. by apply IH2, handle_keeps_keys.
Qed.

(** X4: [save_annotation] never changes a critical moment: for every body
    and every query argument, [get_critical_moment] answers after it what it
    answered before. *)
Theorem save_annotation_keeps_critical_moments
    (now : struct_time) (j : pyval) (arg : option string) (db : store) :
  fst (get_critical_moment arg
         (snd (save_annotation float_of_str now j db)))
  = fst (get_critical_moment arg db).
Proof.
  rewrite !get_critical_moment_run. simpl. do 3 f_equal.
  destruct arg as [w|]; [|done]. destruct (String.eqb w ""); [done|].
  destruct j; try done.
  rewrite save_annotation_run. cbv zeta.
  destruct (truthy _); [|done].
  destruct (to_key _) as [k0|]; [|done].
  destruct (dict_get "time" _) as [t|]; simpl; [|by rewrite record_at_ensured].
  destruct (py_float _ t) as [f|e]; simpl; [|by rewrite record_at_ensured].
  rewrite record_at_insert. destruct (decide (k0 = KStr w)) as [-> | Hne].
  - done.
  - by rewrite record_at_ensured.
Qed.

(** X5: [set_critical_moment] never changes an annotation sequence: for
    every body and every query argument, [get_annotations] answers after it
    what it answered before. *)
Theorem set_critical_moment_keeps_annotations
    (j : pyval) (arg : option string) (db : store) :
  fst (get_annotations arg (snd (set_critical_moment float_of_str j db)))
  = fst (get_annotations arg db).
Proof.
  rewrite !get_annotations_run. simpl. do 3 f_equal.
  destruct arg as [w|]; [|done]. destruct (String.eqb w ""); [done|].
  rewrite !annotations_of_record_at.
  destruct j; try done.
  rewrite set_critical_moment_run. cbv zeta.
  destruct (truthy _); [|done].
  destruct (to_key _) as [k0|]; [|done].
  destruct (py_float _ _) as [f|e]; simpl; [|by rewrite record_at_ensured].
  rewrite record_at_insert. destruct (decide (k0 = KStr w)) as [-> | Hne].
  - done.
  - by rewrite record_at_ensured.
Qed.

(** X6: for a video_id that has a record, [review_annotations] answers the
    video_id together with exactly the list [get_annotations] answers; it
    adds, drops and reorders nothing. *)
Theorem review_agrees_with_get_annotations (v : string) (db : store) :
  v ≠ "" →
  is_Some (db !! KStr v) →
  ∃ l,
    get_annotations (Some v) db = (Ok (jsonify (VList l) 200), db)
    ∧ review_annotations (Some v) db =
        (Ok (jsonify (VDict [("video_id", VStr v); ("annotations", VList l)])
               200), db).
Proof.
  intros Hv [r Hr]. exists (annotations r).
  rewrite get_annotations_run, review_annotations_run.
  apply String.eqb_neq in Hv. rewrite Hv.
  unfold annotations_of. by rewrite Hr.
Qed.

Lemma post_creates_record (req : request) (data : pydict) (v : string)
    (db : store) :
  (∃ now, req = SaveAnnotation now (VDict data))
  ∨ req = SetCriticalMoment (VDict data) →
  v ≠ "" →
  dict_get "video_id" data = Some (VStr v) →
  is_Some (snd (handle float_of_str req db) !! KStr v)
  ∧ ((∃ e, fst (handle float_of_str req db) = Raise e) →
     record_at (KStr v) (snd (handle float_of_str req db))
     = record_at (KStr v) db).
Proof.
  intros Hreq Hv Hid.
  assert (Hens : is_Some (ensured (KStr v) db !! KStr v)
                 ∧ record_at (KStr v) (ensured (KStr v) db)
                   = record_at (KStr v) db).
  { split; [rewrite ensured_lookup; eauto | apply record_at_ensured]. }
  destruct Hens as [Hens1 Hens2].
  assert (Hvid : dict_get_default "video_id" data = VStr v)
    by (unfold dict_get_default; by rewrite Hid).
  destruct Hreq as [[now ->] | ->]; cbn [handle].
  - rewrite save_annotation_run. cbv zeta.
    rewrite Hvid, (truthy_VStr v Hv). simpl to_key. cbv iota beta.
    destruct (dict_get "time" _) as [t|]; cbn [fst snd];
      [|split; [exact Hens1 | intros _; exact Hens2]].
    destruct (py_float _ t) as [f|e]; cbn [fst snd];
      [|split; [exact Hens1 | intros _; exact Hens2]].
    rewrite lookup_insert_eq. split; [eauto|]. by intros [e He].
  - rewrite set_critical_moment_run. cbv zeta.
    rewrite Hvid, (truthy_VStr v Hv). simpl to_key. cbv iota beta.
    destruct (py_float _ _) as [f|e]; cbn [fst snd];
      [|split; [exact Hens1 | intros _; exact Hens2]].
    rewrite lookup_insert_eq. split; [eauto|]. by intros [e He].
Qed.

(** X7: once a POST with the non-empty string video_id [v] has got past the
    video_id check, [v] has a record, also when the request then raised:
    [review_annotations] answers the video_id with its annotation list and no
    longer the no-data message.  For a video_id that was new and a
    [save_annotation] that raised, that list is empty. *)
Theorem post_makes_video_id_known
    (now : struct_time) (data : pydict) (v : string) (db : store) :
  v ≠ "" →
  dict_get "video_id" data = Some (VStr v) →
  let db1 := snd (save_annotation float_of_str now (VDict data) db) in
  let db2 := snd (set_critical_moment float_of_str (VDict data) db) in
  review_annotations (Some v) db1 =
    (Ok (jsonify (VDict [("video_id", VStr v);
                         ("annotations", VList (annotations_of (KStr v) db1))])
           200), db1)
  ∧ review_annotations (Some v) db2 =
      (Ok (jsonify (VDict [("video_id", VStr v);
                           ("annotations",
                            VList (annotations_of (KStr v) db2))]) 200), db2)
  ∧ (db !! KStr v = None →
     (∃ e, fst (save_annotation float_of_str now (VDict data) db) = Raise e) →
     annotations_of (KStr v) db1 = []).
Proof.
  intros Hv Hid db1 db2.
  assert (Hrev : ∀ s : store, is_Some (s !! KStr v) →
    review_annotations (Some v) s =
      (Ok (jsonify (VDict [("video_id", VStr v);
                           ("annotations", VList (annotations_of (KStr v) s))])
             200), s)).
  { intros s [r Hr]. rewrite review_annotations_run.
    pose proof Hv as Hv'. apply String.eqb_neq in Hv'. rewrite Hv'.
    unfold annotations_of. by rewrite Hr. }
  destruct (post_creates_record (SaveAnnotation now (VDict data)) data v db)
    as [H1 H1']; [left; by exists now | done | done |].
  destruct (post_creates_record (SetCriticalMoment (VDict data)) data v db)
    as [H2 _]; [by right | done | done |].
  split; [by apply Hrev|]. split; [by apply Hrev|].
  intros Hnew Hraise. unfold db1. rewrite annotations_of_record_at.
  simpl in H1'. rewrite (H1' Hraise). unfold record_at. by rewrite Hnew.
Qed.

(** X8: a POST body that is not a JSON object (an array, a string, a
    number, [null]) makes both POST handlers raise [AttributeError] at
    [data.get]; the store is untouched. *)
Theorem post_body_not_an_object (now : struct_time) (j : pyval) (db : store) :
  (∀ d, j ≠ VDict d) →
  save_annotation float_of_str now j db = (Raise AttributeError, db)
  ∧ set_critical_moment float_of_str j db = (Raise AttributeError, db).
Proof.
  intros H. split.
  - by apply save_annotation_not_dict.
  - by apply set_critical_moment_not_dict.
Qed.

(** X9: a video_id that is a non-empty JSON array or object passes the
    emptiness check and then fails as a dictionary key: both POST handlers
    raise [TypeError] before any record is created, and the store is
    untouched. *)
Theorem post_unhashable_video_id
    (now : struct_time) (data : pydict) (vid : pyval) (db : store) :
  dict_get "video_id" data = Some vid →
  ((∃ x l, vid = VList (x :: l)) ∨ (∃ x d, vid = VDict (x :: d))) →
  save_annotation float_of_str now (VDict data) db = (Raise TypeError, db)
  ∧ set_critical_moment float_of_str (VDict data) db = (Raise TypeError, db).
Proof.
  intros Hid Hvid.
  rewrite save_annotation_run, set_critical_moment_run. cbv zeta.
  unfold dict_get_default at 1 2 3 4. rewrite Hid.
  destruct Hvid as [(x & l & ->) | (x & d & ->)]; done.
Qed.

(** X10: with a usable video_id, a [save_annotation] body without a [time]
    member raises [KeyError], and a [set_critical_moment] body whose
    [critical_moment] is absent or [null] raises [TypeError]; either way the
    record of the video_id has been created and nothing else changed. *)
Theorem post_missing_field
    (now : struct_time) (data : pydict) (k : pykey) (db : store) :
  truthy (dict_get_default "video_id" data) = true →
  to_key (dict_get_default "video_id" data) = Some k →
  (dict_get "time" data = None →
   save_annotation float_of_str now (VDict data) db
   = (Raise KeyError, ensured k db))
  ∧ (dict_get "critical_moment" data = None
     ∨ dict_get "critical_moment" data = Some VNone →
     set_critical_moment float_of_str (VDict data) db
     = (Raise TypeError, ensured k db)).
Proof.
  intros Htruthy Hkey. split.
  - intros Ht. rewrite save_annotation_run. cbv zeta.
    rewrite Htruthy, Hkey. rewrite dict_get_set_ne by done. by rewrite Ht.
  - intros Hc. rewrite set_critical_moment_run. cbv zeta.
    rewrite Htruthy, Hkey.
    assert (dict_get_default "critical_moment" data = VNone) as ->.
    { unfold dict_get_default. by destruct Hc as [-> | ->]. }
    reflexivity.
Qed.

(** X11: a POST with a JSON object ends with status 400 exactly when its
    video_id is missing or falsy; every other outcome is 200 or 500. *)
Theorem bad_request_iff_no_video_id
    (now : struct_time) (data : pydict) (db : store) :
  let s1 := http_status (fst (save_annotation float_of_str now (VDict data) db)) in
  let s2 := http_status (fst (set_critical_moment float_of_str (VDict data) db)) in
  (s1 = 400 ↔ truthy (dict_get_default "video_id" data) = false)
  ∧ (s2 = 400 ↔ truthy (dict_get_default "video_id" data) = false)
  ∧ (s1 = 200 ∨ s1 = 400 ∨ s1 = 500)
  ∧ (s2 = 200 ∨ s2 = 400 ∨ s2 = 500).
Proof.
  cbv zeta. rewrite save_annotation_run, set_critical_moment_run. cbv zeta.
  destruct (truthy (dict_get_default "video_id" data)); simpl.
  2:{ repeat split; auto. }
  destruct (to_key _) as [k|]; simpl.
  2:{ repeat split; try discriminate; auto. }
  destruct (dict_get "time" _) as [t|]; [destruct (py_float _ t)|];
    destruct (py_float _ (dict_get_default "critical_moment" data));
    simpl; repeat split; try discriminate; auto.
Qed.

Lemma save_annotation_appends
    (now : struct_time) (data : pydict) (v : string) (t : pyval) (f : float)
    (db : store) :
  v ≠ "" →
  dict_get "video_id" data = Some (VStr v) →
  dict_get "time" data = Some t →
  py_float float_of_str t = Ok f →
  annotations_of (KStr v)
    (snd (save_annotation float_of_str now (VDict data) db))
  = (annotations_of (KStr v) db ++
       [VDict (dict_set "time" (VFloat f)
                 (dict_set "timestamp" (VStr (strftime now)) data))])%list.
Proof.
  intros Hv Hid Htime Hf.
  rewrite save_annotation_run. cbv zeta.
  unfold dict_get_default. rewrite Hid, (truthy_VStr v Hv). simpl to_key.
  cbv iota beta.
  rewrite dict_get_set_ne by done. rewrite Htime, Hf. simpl.
  unfold annotations_of at 1. rewrite lookup_insert_eq. simpl.
  by rewrite annotations_of_record_at.
Qed.

(** X12: two accepted [save_annotation] requests for one video_id leave
    their entries in arrival order after the earlier annotations; nothing is
    merged or deduplicated, so sending the same payload twice stores it
    twice. *)
Theorem saves_append_in_arrival_order
    (now1 now2 : struct_time) (data1 data2 : pydict) (v : string)
    (t1 t2 : pyval) (f1 f2 : float) (db : store) :
  v ≠ "" →
  dict_get "video_id" data1 = Some (VStr v) →
  dict_get "video_id" data2 = Some (VStr v) →
  dict_get "time" data1 = Some t1 → py_float float_of_str t1 = Ok f1 →
  dict_get "time" data2 = Some t2 → py_float float_of_str t2 = Ok f2 →
  annotations_of (KStr v)
    (serve float_of_str
       [SaveAnnotation now1 (VDict data1); SaveAnnotation now2 (VDict data2)]
       db)
  = (annotations_of (KStr v) db ++
       [VDict (dict_set "time" (VFloat f1)
                 (dict_set "timestamp" (VStr (strftime now1)) data1));
        VDict (dict_set "time" (VFloat f2)
                 (dict_set "timestamp" (VStr (strftime now2)) data2))])%list.
Proof.
  intros Hv Hid1 Hid2 Ht1 Hf1 Ht2 Hf2. simpl.
  rewrite (save_annotation_appends now2 data2 v t2 f2) by done.
  rewrite (save_annotation_appends now1 data1 v t1 f1) by done.
  by rewrite <- app_assoc.
Qed.

End StoreFrames.

(** ** The further properties on concrete requests *)

Lemma writes_are_per_video_witness :
  let db' :=
    snd (handle float_of_decimal
           (SaveAnnotation new_year_noon
              (VDict [("video_id", VStr "v1"); ("time", VStr "12.34")])) ∅) in
  fst (get_annotations (Some "v2") db') = fst (get_annotations (Some "v2") ∅).
Proof.
  refine (proj1
    (writes_are_per_video float_of_decimal
       (SaveAnnotation new_year_noon
          (VDict [("video_id", VStr "v1"); ("time", VStr "12.34")]))
       "v2" ∅ _)).
  simpl. discriminate.
Defined.

Lemma non_string_video_id_is_unreadable_witness :
  let db1 :=
    snd (save_annotation float_of_decimal new_year_noon
           (VDict [("video_id", VInt 5); ("time", VInt 3)]) ∅) in
  fst (get_annotations (Some "5") db1) = fst (get_annotations (Some "5") ∅).
Proof.
  refine (proj1 (proj1
    (non_string_video_id_is_unreadable float_of_decimal new_year_noon
       [("video_id", VInt 5); ("time", VInt 3)] (Some "5") ∅ _))).
  intros s. simpl. discriminate.
Defined.

Lemma review_agrees_with_get_annotations_witness :
  let db := <[KStr "v1" := {| annotations := [VDict [("time", VFloat 1)]];
                              critical_moment := VNone |}]> (∅ : store) in
  ∃ l,
    get_annotations (Some "v1") db = (Ok (jsonify (VList l) 200), db)
    ∧ review_annotations (Some "v1") db =
        (Ok (jsonify (VDict [("video_id", VStr "v1"); ("annotations", VList l)])
               200), db).
Proof.
  apply (review_agrees_with_get_annotations "v1").
  - discriminate.
  - rewrite lookup_insert_eq. eauto.
Defined.

Lemma post_makes_video_id_known_witness :
  let db1 :=
    snd (save_annotation float_of_decimal new_year_noon
           (VDict [("video_id", VStr "v1"); ("time", VStr "abc")]) ∅) in
  review_annotations (Some "v1") db1 =
    (Ok (jsonify (VDict [("video_id", VStr "v1");
                         ("annotations",
                          VList (annotations_of (KStr "v1") db1))]) 200), db1).
Proof.
  refine (proj1
    (post_makes_video_id_known float_of_decimal new_year_noon
       [("video_id", VStr "v1"); ("time", VStr "abc")] "v1" ∅ _ _)).
  - discriminate.
  - reflexivity.
Defined.

Lemma post_body_not_an_object_witness :
  save_annotation float_of_decimal new_year_noon
    (VList [VStr "v1"; VInt 3]) ∅ = (Raise AttributeError, ∅).
Proof.
  refine (proj1
    (post_body_not_an_object float_of_decimal new_year_noon
       (VList [VStr "v1"; VInt 3]) ∅ _)).
  intros d. discriminate.
Defined.

Lemma post_unhashable_video_id_witness :
  save_annotation float_of_decimal new_year_noon
    (VDict [("video_id", VList [VStr "v1"]); ("time", VInt 3)]) ∅
  = (Raise TypeError, ∅).
Proof.
  refine (proj1
    (post_unhashable_video_id float_of_decimal new_year_noon
       [("video_id", VList [VStr "v1"]); ("time", VInt 3)]
       (VList [VStr "v1"]) ∅ _ _)).
  - reflexivity.
  - left. by exists (VStr "v1"), [].
Defined.

Lemma post_missing_field_witness :
  save_annotation float_of_decimal new_year_noon
    (VDict [("video_id", VStr "v1"); ("comment", VStr "rock")]) ∅
  = (Raise KeyError, ensured (KStr "v1") ∅).
Proof.
  refine (proj1
    (post_missing_field float_of_decimal new_year_noon
       [("video_id", VStr "v1"); ("comment", VStr "rock")] (KStr "v1") ∅ _ _)
    _).
  - reflexivity.
  - reflexivity.
  - reflexivity.
Defined.

Lemma saves_append_in_arrival_order_witness :
  annotations_of (KStr "v1")
    (serve float_of_decimal
       [SaveAnnotation new_year_noon
          (VDict [("video_id", VStr "v1"); ("time", VInt 3)]);
        SaveAnnotation new_year_noon
          (VDict [("video_id", VStr "v1"); ("time", VInt 3)])] ∅)
  = (annotations_of (KStr "v1") ∅ ++
       [VDict (dict_set "time" (VFloat 3)
                 (dict_set "timestamp" (VStr (strftime new_year_noon))
                    [("video_id", VStr "v1"); ("time", VInt 3)]));
        VDict (dict_set "time" (VFloat 3)
                 (dict_set "timestamp" (VStr (strftime new_year_noon))
                    [("video_id", VStr "v1"); ("time", VInt 3)]))])%list.
Proof.
  apply (saves_append_in_arrival_order float_of_decimal
           new_year_noon new_year_noon
           [("video_id", VStr "v1"); ("time", VInt 3)]
           [("video_id", VStr "v1"); ("time", VInt 3)]
           "v1" (VInt 3) (VInt 3) 3%float 3%float ∅).
  - discriminate.
  - reflexivity.
  - reflexivity.
  - reflexivity.
  - vm_compute. reflexivity.
  - reflexivity.
  - vm_compute. reflexivity.
Defined.

(** * Further properties of the scan *)

(** ** [splitext] *)

Lemma append_nil_l (s : string) : EmptyString +:+ s = s.
Proof. reflexivity. Qed.

Lemma append_cons (c : ascii) (s t : string) :
  String c s +:+ t = String c (s +:+ t).
Proof. reflexivity. Qed.

Lemma append_nil_r (s : string) : s +:+ EmptyString = s.
Proof.
  induction s as [|a s IH]; [done|]. by rewrite append_cons, IH.
Qed.

Lemma substring_0_length (p : string) :
  String.substring 0 (String.length p) p = p.
Proof. induction p as [|c p IH]; simpl; [done | by rewrite IH]. Qed.

Lemma substring_split (n : nat) (p : string) :
  String.substring 0 n p +:+ String.substring n (String.length p - n) p = p.
Proof.
  revert n. induction p as [|c p IH]; intros [|n]; simpl; try reflexivity.
  - rewrite append_nil_l. f_equal. apply substring_0_length.
  - rewrite append_cons. f_equal. apply IH.
Qed.

Lemma substring_drop_app (s1 t : string) :
  String.substring (String.length s1)
    (String.length (s1 +:+ t) - String.length s1) (s1 +:+ t) = t.
Proof.
  induction s1 as [|a s1 IH].
  - rewrite append_nil_l. simpl String.length. rewrite Nat.sub_0_r.
    apply substring_0_length.
  - rewrite append_cons. simpl. apply IH.
Qed.

Lemma substring_take_app (s1 t : string) :
  String.substring 0 (String.length s1) (s1 +:+ t) = s1.
Proof.
  induction s1 as [|a s1 IH].
  - rewrite append_nil_l. simpl. by destruct t.
  - rewrite append_cons. simpl. by rewrite IH.
Qed.

Lemma contains_app (c : ascii) (s t : string) :
  contains c (s +:+ t) = contains c s || contains c t.
Proof.
  induction s as [|a s IH]; [reflexivity|].
  rewrite append_cons. simpl. by rewrite IH, orb_assoc.
Qed.

(** [rfind] finds the last occurrence, or answers [-1] when there is none. *)
Lemma rfind_from_spec (i : Z) (c : ascii) (s : string) :
  0 <= i →
  (rfind_from i c s = -1 ∧ contains c s = false)
  ∨ ∃ s1 s2, s = s1 +:+ String c s2 ∧ contains c s2 = false
             ∧ rfind_from i c s = i + Z.of_nat (String.length s1).
Proof.
  revert i. induction s as [|a s IH]; intros i Hi; simpl.
  - by left.
  - destruct (IH (i + 1)) as [[Hr Hc] | (s1 & s2 & -> & Hc & Hr)]; [lia| |].
    + rewrite Hr. simpl. destruct (Ascii.eqb a c) eqn:E.
      * right. apply Ascii.eqb_eq in E. subst a.
        exists EmptyString, s. rewrite append_nil_l. simpl.
        split; [done|]. split; [done|]. lia.
      * left. by rewrite Hc.
    + right. rewrite Hr.
      destruct (0 <=? i + 1 + Z.of_nat (String.length s1)) eqn:E; [|lia].
      exists (String a s1), s2. rewrite append_cons. simpl.
      split; [done|]. split; [done|]. lia.
Qed.

Lemma rfind_from_before (i : Z) (c : ascii) (s1 t : string) :
  0 <= i →
  rfind_from i c (s1 +:+ t) < i + Z.of_nat (String.length s1) →
  contains c t = false.
Proof.
  revert i. induction s1 as [|a s1 IH]; intros i Hi.
  - rewrite append_nil_l. simpl. intros Hlt.
    destruct (rfind_from_spec i c t Hi) as [[_ Hc] | (u1 & u2 & _ & _ & Hr)];
      [done | lia].
  - rewrite append_cons. simpl. intros Hlt. apply (IH (i + 1)); [lia|].
    destruct (0 <=? rfind_from (i + 1) c (s1 +:+ t)) eqn:E; lia.
Qed.

(** [splitext] in the case where it finds an extension. *)
Lemma splitext_cases (p : string) :
  splitext p = (p, EmptyString)
  ∨ ∃ s1 s2, p = s1 +:+ String "." s2
             ∧ splitext p = (s1, String "." s2)
             ∧ s1 ≠ EmptyString
             ∧ contains "." s2 = false ∧ contains "/" s2 = false.
Proof.
  unfold splitext.
  destruct ((rfind "/" p <? rfind "." p)
            && has_non_dot p (rfind "/" p + 1) (rfind "." p)) eqn:E;
    [|by left].
  right. apply andb_prop in E as [Hlt Hnd]. apply Z.ltb_lt in Hlt.
  unfold rfind in *.
  destruct (rfind_from_spec 0 "." p) as [[Hr _] | (s1 & s2 & Hp & Hc & Hr)];
    [lia | |].
  { rewrite Hr in Hlt.
    destruct (rfind_from_spec 0 "/" p) as [[Hs _] | (? & ? & _ & _ & Hs)];
      lia. }
  rewrite Z.add_0_l in Hr.
  exists s1, s2. rewrite Hr, Nat2Z.id.
  split; [exact Hp|]. split; [|split; [|split]].
  - subst p. by rewrite substring_take_app, substring_drop_app.
  - intros ->. simpl in Hr. rewrite Hr in Hlt, Hnd.
    destruct (rfind_from_spec 0 "/" p) as [[Hs _] | (? & ? & _ & _ & Hs)];
      [lia| |lia].
    rewrite Hs in Hnd. by vm_compute in Hnd.
  - exact Hc.
  - rewrite Hr, Hp in Hlt.
    apply (rfind_from_before 0 "/" s1 (String "." s2)) in Hlt; [|lia].
    simpl in Hlt. exact Hlt.
Qed.

(** X13: [splitext] only cuts: root and extension put together give the
    path back. *)
Theorem splitext_concat (p : string) :
  fst (splitext p) +:+ snd (splitext p) = p.
Proof.
  destruct (splitext_cases p) as [-> | (s1 & s2 & Hp & -> & _)]; simpl.
  - apply append_nil_r.
  - by rewrite Hp.
Qed.

(** X14: the extension [splitext] returns is empty, or a period followed by
    characters among which there is neither a period nor a slash; and it is
    never the whole name: a path with an extension has a non-empty root, so
    a file called [.mp4] has no extension. *)
Theorem splitext_extension_shape (p : string) :
  snd (splitext p) = EmptyString
  ∨ ∃ rest, snd (splitext p) = String "." rest
            ∧ contains "." rest = false ∧ contains "/" rest = false
            ∧ fst (splitext p) ≠ EmptyString.
Proof.
  destruct (splitext_cases p) as [-> | (s1 & s2 & _ & -> & Hne & H1 & H2)].
  - by left.
  - right. by exists s2.
Qed.

(** ** Letter case *)

Lemma lower_ascii_eqb_dot (a : ascii) :
  Ascii.eqb (lower_ascii a) "." = Ascii.eqb a ".".
Proof. destruct a as [[] [] [] [] [] [] [] []]; reflexivity. Qed.

Lemma lower_ascii_eqb_slash (a : ascii) :
  Ascii.eqb (lower_ascii a) "/" = Ascii.eqb a "/".
Proof. destruct a as [[] [] [] [] [] [] [] []]; reflexivity. Qed.

Lemma lower_ascii_idem (a : ascii) : lower_ascii (lower_ascii a) = lower_ascii a.
Proof. destruct a as [[] [] [] [] [] [] [] []]; reflexivity. Qed.

Lemma lower_idem (s : string) : lower (lower s) = lower s.
Proof.
  induction s as [|a s IH]; simpl; [done|]. by rewrite lower_ascii_idem, IH.
Qed.

Lemma length_lower (s : string) : String.length (lower s) = String.length s.
Proof. induction s as [|a s IH]; simpl; [done | by rewrite IH]. Qed.

Lemma rfind_from_lower (i : Z) (c : ascii) (s : string) :
  (∀ a, Ascii.eqb (lower_ascii a) c = Ascii.eqb a c) →
  rfind_from i c (lower s) = rfind_from i c s.
Proof.
  intros Hc. revert i. induction s as [|a s IH]; intros i; simpl; [done|].
  by rewrite IH, Hc.
Qed.

Lemma get_lower (i : nat) (s : string) :
  String.get i (lower s) = lower_ascii <$> String.get i s.
Proof.
  revert i. induction s as [|a s IH]; intros [|i]; simpl; try done.
Qed.

Lemma has_non_dot_lower (p : string) (lo hi : Z) :
  has_non_dot (lower p) lo hi = has_non_dot p lo hi.
Proof.
  unfold has_non_dot.
  induction (seq (Z.to_nat lo) (Z.to_nat (hi - lo))) as [|i l IH]; simpl;
    [done|].
  rewrite IH, get_lower. f_equal.
  destruct (String.get i p) as [c|]; simpl; [|done].
  by rewrite lower_ascii_eqb_dot.
Qed.

Lemma substring_lower (n m : nat) (s : string) :
  String.substring n m (lower s) = lower (String.substring n m s).
Proof.
  revert n m. induction s as [|a s IH]; intros [|n] [|m]; simpl; try done.
  by rewrite IH.
Qed.

Lemma splitext_lower (p : string) :
  splitext (lower p) = (lower (fst (splitext p)), lower (snd (splitext p))).
Proof.
  unfold splitext, rfind.
  rewrite !rfind_from_lower
    by (apply lower_ascii_eqb_dot || apply lower_ascii_eqb_slash).
  rewrite has_non_dot_lower, length_lower.
  destruct (_ && _); simpl; [|done].
  by rewrite !substring_lower.
Qed.

(** X15: the extension the scan compares does not depend on letter case:
    two file names that differ only in the case of their ASCII letters are
    put in the same bucket. *)
Theorem extension_ignores_case (p q : string) :
  lower p = lower q → extension p = extension q.
Proof.
  intros H.
  assert (Hext : ∀ s, extension s = snd (splitext (lower s))).
  { intros s. unfold extension. by rewrite splitext_lower. }
  by rewrite !Hext, H.
Qed.

(** ** What the scan depends on *)

Lemma filter_Permutation_bool {A} (f : A → bool) (l l' : list A) :
  l ≡ₚ l' → List.filter f l ≡ₚ List.filter f l'.
Proof.
  induction 1 as [|x l l' _ IH|x y l|l l' l'' _ IH1 _ IH2]; simpl.
  - done.
  - destruct (f x); [by constructor | done].
  - destruct (f x), (f y); try done. apply perm_swap.
  - by etrans.
Qed.

Lemma filter_nil_Permutation {A} (f : A → bool) (l l' : list A) :
  l ≡ₚ l' → (List.filter f l ≠ [] ↔ List.filter f l' ≠ []).
Proof.
  intros H. pose proof (filter_Permutation_bool f l l' H) as Hp.
  split; intros Hne Hnil; apply Hne.
  - rewrite Hnil in Hp. by apply Permutation_nil_r in Hp.
  - rewrite Hnil in Hp. by apply Permutation_nil_l in Hp.
Qed.

Lemma all_found_filters (p : option node) (l : list string) :
  all_found (scan_folder p l) = true
  ↔ List.filter (is_file_with_ext ".mp4" p) l ≠ []
    ∧ List.filter (is_file_with_ext ".csv" p) l ≠ []
    ∧ List.filter (is_file_with_ext ".pdf" p) l ≠ [].
Proof.
  unfold all_found. rewrite scan_folder_last. simpl.
  rewrite <- !last_filter_truthy by discriminate.
  rewrite !andb_true_iff. tauto.
Qed.

(** X16: whether a folder is emitted does not depend on the order in which
    its entries are enumerated; and when no bucket has more than one
    candidate, the files chosen do not depend on it either. *)
Theorem scan_folder_order (p : option node) (l l' : list string) :
  l ≡ₚ l' →
  all_found (scan_folder p l) = all_found (scan_folder p l')
  ∧ ((∀ ext, length (List.filter (is_file_with_ext ext p) l) ≤ 1)%nat →
     scan_folder p l = scan_folder p l').
Proof.
  intros Hperm. split.
  - apply eq_true_iff_eq. rewrite !all_found_filters.
    rewrite (filter_nil_Permutation (is_file_with_ext ".mp4" p) l l' Hperm).
    rewrite (filter_nil_Permutation (is_file_with_ext ".csv" p) l l' Hperm).
    rewrite (filter_nil_Permutation (is_file_with_ext ".pdf" p) l l' Hperm).
    done.
  - intros Hone. rewrite !scan_folder_last.
    assert (Heq : ∀ ext, List.filter (is_file_with_ext ext p) l
                         = List.filter (is_file_with_ext ext p) l').
    { intros ext.
      pose proof (filter_Permutation_bool (is_file_with_ext ext p) l l' Hperm)
        as Hp.
      specialize (Hone ext).
      destruct (List.filter (is_file_with_ext ext p) l) as [|x [|y t]].
      - by apply Permutation_nil_l in Hp.
      - by apply Permutation_singleton_l in Hp.
      - simpl in Hone. lia. }
    by rewrite !Heq.
Qed.

Section ScanFrames.

Variable url_for_static : string -> string.

Lemma emitted_folders_sublist (root : option node) (l : list string) :
  map folder (omap (emitted url_for_static root) l) `sublist_of` l.
Proof.
  induction l as [|f l IH]; simpl; [constructor|].
  destruct (emitted url_for_static root f) as [b|] eqn:E; simpl.
  - rewrite (emitted_folder _ _ _ _ E). by constructor.
  - by constructor.
Qed.

Lemma filter_bool_sublist {A} (f : A → bool) (l : list A) :
  List.filter f l `sublist_of` l.
Proof.
  induction l as [|x l IH]; simpl; [constructor|].
  destruct (f x); by constructor.
Qed.

(** X17: the triples come in the enumeration order of the root, at most one
    per entry: the folder names of the result, in order, are obtained from
    the listing of the root by leaving entries out. *)
Theorem list_videos_order
    (entries : list (string * node)) (blasts : list blast) :
  list_videos url_for_static (Some (Dir entries)) = Ok blasts →
  map folder blasts `sublist_of` map fst entries
  ∧ (length blasts ≤ length entries)%nat.
Proof.
  intros H. rewrite list_videos_emitted in H. injection H as <-.
  assert (Hsub : map folder
            (omap (emitted url_for_static (Some (Dir entries)))
               (List.filter
                  (λ f, os_path_isdir (path_join (Some (Dir entries)) f))
                  (map fst entries)))
          `sublist_of` map fst entries).
  { etrans; [apply emitted_folders_sublist | apply filter_bool_sublist]. }
  split; [exact Hsub|].
  apply sublist_length in Hsub. by rewrite !length_map in Hsub.
Qed.

Lemma child_map (g : node → node) (name : string)
    (entries : list (string * node)) :
  child name (map (λ e, (fst e, g (snd e))) entries)
  = g <$> child name entries.
Proof.
  induction entries as [|[n x] entries IH]; simpl; [done|].
  by destruct (String.eqb name n).
Qed.

Lemma map_fst_map (g : node → node) (entries : list (string * node)) :
  map fst (map (λ e, (fst e, g (snd e))) entries) = map fst entries.
Proof. induction entries as [|[n x] entries IH]; simpl; by f_equal. Qed.

Lemma scan_folder_ext (p p' : option node) (l : list string) :
  (∀ x, os_path_isdir (path_join p' x) = os_path_isdir (path_join p x)) →
  scan_folder p' l = scan_folder p l.
Proof.
  intros H. unfold scan_folder. generalize no_buckets.
  induction l as [|x l IH]; intros b; simpl; [done|].
  rewrite IH. f_equal. unfold classify. by rewrite H.
Qed.

Lemma emitted_prune (entries : list (string * node)) (f : string) :
  emitted url_for_static (Some (Dir (prune_root entries))) f
  = emitted url_for_static (Some (Dir entries)) f.
Proof.
  unfold emitted, prune_root. simpl path_join.
  rewrite (child_map prune_folder).
  destruct (child f entries) as [[|es]|]; simpl; try done.
  rewrite (map_fst_map prune_node).
  rewrite (scan_folder_ext (Some (Dir es))); [done|].
  intros x. simpl. rewrite (child_map prune_node).
  by destruct (child x es) as [[|?]|].
Qed.

(** X18: the scan looks exactly two levels deep: what lies inside a
    directory nested in a folder has no influence on the result. *)
Theorem list_videos_ignores_nested (entries : list (string * node)) :
  list_videos url_for_static (Some (Dir (prune_root entries)))
  = list_videos url_for_static (Some (Dir entries)).
Proof.
  rewrite !list_videos_emitted. f_equal.
  unfold prune_root at 2. rewrite (map_fst_map prune_folder).
  rewrite (List.filter_ext
             (λ f, os_path_isdir (path_join (Some (Dir (prune_root entries))) f))
             (λ f, os_path_isdir (path_join (Some (Dir entries)) f))).
  2:{ intros f. unfold prune_root. simpl. rewrite (child_map prune_folder).
      by destruct (child f entries) as [[|?]|]. }
  induction (List.filter _ (map fst entries)) as [|f l IH]; [done|].
  cbn [omap list_omap]. by rewrite emitted_prune, IH.
Qed.

End ScanFrames.

(** ** The further properties of the scan on concrete inputs *)

Lemma extension_ignores_case_witness : extension "Blast.MP4" = extension "blast.mp4".
Proof. apply (extension_ignores_case "Blast.MP4" "blast.mp4"). reflexivity. Defined.

Lemma scan_folder_order_witness :
  all_found (scan_folder (Some (Dir [("a.mp4", File); ("a.csv", File);
                                     ("a.pdf", File)]))
               ["a.mp4"; "a.csv"; "a.pdf"])
  = all_found (scan_folder (Some (Dir [("a.mp4", File); ("a.csv", File);
                                       ("a.pdf", File)]))
                 ["a.csv"; "a.mp4"; "a.pdf"]).
Proof.
  refine (proj1
    (scan_folder_order
       (Some (Dir [("a.mp4", File); ("a.csv", File); ("a.pdf", File)]))
       ["a.mp4"; "a.csv"; "a.pdf"] ["a.csv"; "a.mp4"; "a.pdf"] _)).
  apply perm_swap.
Defined.

Lemma list_videos_order_witness :
  map folder [{| folder := "A";
                 video_url := "/static/blasts/A/a.mp4";
                 csv_url := "/static/blasts/A/a.csv";
                 pdf_url := "/static/blasts/A/a.pdf" |}]
    `sublist_of` map fst blasts_A_B
  ∧ (length [{| folder := "A";
                video_url := "/static/blasts/A/a.mp4";
                csv_url := "/static/blasts/A/a.csv";
                pdf_url := "/static/blasts/A/a.pdf" |}]
     ≤ length blasts_A_B)%nat.
Proof.
  apply (list_videos_order static_url blasts_A_B). reflexivity.
Defined.
